(** * Document preview: line classifier and preview/edit controller

    A shallow embedding of [frontend/src/components/DocumentPreview.jsx]
    and of the Export page as the owner of the resume preview (the cover
    letter preview is a second instance of the same component, wired the
    same way).

    JavaScript strings are sequences of UTF-16 code units; a code unit is
    modelled as an [N] and a string as a [list N], so [length] is the
    JavaScript [length] and every index below is a code-unit index. *)

From Stdlib Require Import NArith ZArith Ascii String Bool Lia.
From stdpp Require Import base list strings gmap.

Local Open Scope N_scope.

(** ** JavaScript strings and values *)

Module Js.

(** A prop such as [content] is a string when the document exists and
    [undefined] (or [null]) when it does not. *)
Inductive value :=
| undefined
| null
| Str (s : list N).

(** A string literal of the source whose characters are all ASCII. *)
Definition lit (s : string) : list N :=
  map N_of_ascii (list_ascii_of_string s).

(** [!v]: [undefined], [null] and the empty string are falsy. *)
Definition falsy (v : value) : bool :=
  match v with
  | undefined | null => true
  | Str s => match s with [] => true | _ :: _ => false end
  end.

(** [v?.length || 0]. *)
Definition length_or_0 (v : value) : nat :=
  match v with
  | undefined | null => 0%nat
  | Str s => length s
  end.

(** WhiteSpace and LineTerminator code units: what [trim] strips and what
    [\s] matches in a regular expression without the [u] flag. *)
Definition isWhiteSpace (c : N) : bool :=
  ((9 <=? c) && (c <=? 13))
  || (c =? 32) || (c =? 160) || (c =? 5760)
  || ((8192 <=? c) && (c <=? 8202))
  || (c =? 8232) || (c =? 8233) || (c =? 8239) || (c =? 8287)
  || (c =? 12288) || (c =? 65279).

Fixpoint trimStart (s : list N) : list N :=
  match s with
  | [] => []
  | c :: s' => if isWhiteSpace c then trimStart s' else s
  end.

Definition trimEnd (s : list N) : list N := rev (trimStart (rev s)).

Definition trim (s : list N) : list N := trimEnd (trimStart s).

(** [s.startsWith(p)]. *)
Fixpoint startsWith (s p : list N) : bool :=
  match p, s with
  | [], _ => true
  | _ :: _, [] => false
  | a :: p', c :: s' => (c =? a) && startsWith s' p'
  end.

(** [s.includes(sub)]: [sub] occurs in [s] at some position. *)
Fixpoint includes (s sub : list N) : bool :=
  startsWith s sub ||
  match s with
  | [] => false
  | _ :: s' => includes s' sub
  end.

(** [s.split(sep)] for a separator of one code unit, which is what every
    call of the source passes (newline, vertical bar, colon). *)
Fixpoint split (sep : N) (s : list N) : list (list N) :=
  match s with
  | [] => [[]]
  | c :: s' =>
      if c =? sep then [] :: split sep s'
      else match split sep s' with
           | [] => [[c]]
           | part :: parts => (c :: part) :: parts
           end
  end.

(** [parts.join(sep)]. *)
Fixpoint join (sep : N) (parts : list (list N)) : list N :=
  match parts with
  | [] => []
  | [part] => part
  | part :: parts' => part ++ sep :: join sep parts'
  end.

(** [s.substring(n)]. *)
Definition substring (n : nat) (s : list N) : list N := drop n s.

(** [parts.slice(n)]. *)
Definition slice (n : nat) (parts : list (list N)) : list (list N) :=
  drop n parts.

(** [parts[0]], which is [undefined] on an empty array; [split] never
    returns one, and the empty string stands for that case here. *)
Definition first (parts : list (list N)) : list N :=
  match parts with
  | [] => []
  | part :: _ => part
  end.

End Js.

(** ** The classifier: [formatContent] *)

Definition AT : N := 64.
Definition BAR : N := 124.
Definition COLON : N := 58.
Definition AMPERSAND : N := 38.
Definition NEWLINE : N := 10.
(** U+2022, the bullet glyph. *)
Definition BULLET : N := 8226.

Inductive Role :=
| blank
| person_name
| contact_info
| section_header
| job_header
| bullet
| skill_entry
| paragraph.

(** One element per branch of the source, with the text expressions that the
    branch puts between its tags.  The React [key] of an element is its
    position in the returned array. *)
Inductive Block :=
| Blank
| PersonName (text : list N)
| ContactInfo (text : list N)
| SectionHeader (text : list N)
| JobHeader (text : list N)
| Bullet (text : list N)
| SkillEntry (key value : list N)
| Paragraph (text : list N).

Definition role (b : Block) : Role :=
  match b with
  | Blank => blank
  | PersonName _ => person_name
  | ContactInfo _ => contact_info
  | SectionHeader _ => section_header
  | JobHeader _ => job_header
  | Bullet _ => bullet
  | SkillEntry _ _ => skill_entry
  | Paragraph _ => paragraph
  end.

(** The text expressions of a block, in the order they are rendered. *)
Definition displayText (b : Block) : list (list N) :=
  match b with
  | Blank => []
  | PersonName t | ContactInfo t | SectionHeader t | JobHeader t
  | Bullet t | Paragraph t => [t]
  | SkillEntry k v => [k; v]
  end.

(** What the first span of a skill entry shows: the key and a colon. *)
Definition skillLabel (key : list N) : list N := key ++ [COLON].

Definition isUpper (c : N) : bool := (65 <=? c) && (c <=? 90).

(** The character classes [[A-Z\s]] and [[A-Z\s&]]. *)
Definition nameClass (c : N) : bool := isUpper c || Js.isWhiteSpace c.

Definition headerClass (c : N) : bool :=
  isUpper c || Js.isWhiteSpace c || (c =? AMPERSAND).

(** [/^[A-Z\s]+$/]: no [m] flag, so the anchors are the ends of the string. *)
Definition matchesName (s : list N) : bool :=
  match s with
  | [] => false
  | _ :: _ => forallb nameClass s
  end.

(** [/^[A-Z\s&]+$/]. *)
Definition matchesHeader (s : list N) : bool :=
  match s with
  | [] => false
  | _ :: _ => forallb headerClass s
  end.

Definition sections : list (list N) :=
  [ Js.lit "PROFESSIONAL SUMMARY"; Js.lit "WORK EXPERIENCE";
    Js.lit "EDUCATION"; Js.lit "SKILLS"; Js.lit "PROJECTS";
    Js.lit "CERTIFICATIONS"; Js.lit "EXTRACURRICULAR ACTIVITIES";
    Js.lit "AWARDS & ACHIEVEMENTS"; Js.lit "VOLUNTEER"; Js.lit "LANGUAGES";
    Js.lit "INTERESTS" ].

(** The conditions of the [if] statements, in source order. *)
Definition isBlank (trimmedLine : list N) : bool :=
  match trimmedLine with [] => true | _ :: _ => false end.

Definition isName (index : nat) (trimmedLine : list N) : bool :=
  (index =? 0)%nat && matchesName trimmedLine
  && (3 <? length trimmedLine)%nat.

Definition isContact (index : nat) (trimmedLine : list N) : bool :=
  Js.includes trimmedLine [AT]
  || Js.includes trimmedLine (Js.lit "linkedin.com")
  || (Js.includes trimmedLine [BAR] && (index <? 5)%nat).

Definition isSection (trimmedLine : list N) : bool :=
  matchesHeader trimmedLine && (3 <? length trimmedLine)%nat
  && existsb (fun section => Js.includes trimmedLine section) sections.

Definition isJob (trimmedLine : list N) : bool :=
  Js.includes trimmedLine [BAR]
  && (2 <=? length (Js.split BAR trimmedLine))%nat.

Definition isBullet (trimmedLine : list N) : bool :=
  Js.startsWith trimmedLine [BULLET].

Definition isSkill (trimmedLine : list N) : bool :=
  Js.includes trimmedLine [COLON] && negb (Js.includes trimmedLine [AT]).

(** The callback passed to [map]. *)
Definition formatLine (index : nat) (line : list N) : Block :=
  let trimmedLine := Js.trim line in
  if isBlank trimmedLine then Blank
  else if isName index trimmedLine then PersonName trimmedLine
  else if isContact index trimmedLine then ContactInfo trimmedLine
  else if isSection trimmedLine then SectionHeader trimmedLine
  else if isJob trimmedLine then JobHeader trimmedLine
  else if isBullet trimmedLine then
    Bullet (Js.trim (Js.substring 1 trimmedLine))
  else if isSkill trimmedLine then
    SkillEntry
      (Js.first (Js.split COLON trimmedLine))
      (Js.trim (Js.join COLON (Js.slice 1 (Js.split COLON trimmedLine))))
  else Paragraph trimmedLine.

(** [formatContent] returns the empty string on falsy input and an array of
    elements otherwise. *)
Inductive Formatted :=
| EmptyText
| Elements (blocks : list Block).

Definition formatContent (text : Js.value) : Formatted :=
  if Js.falsy text then EmptyText
  else match text with
       | Js.Str s => Elements (imap formatLine (Js.split NEWLINE s))
       | _ => EmptyText
       end.

(** The blocks React renders for a result: none for the empty string. *)
Definition blocksOf (f : Formatted) : list Block :=
  match f with
  | EmptyText => []
  | Elements blocks => blocks
  end.

(** ** The component: props, state cells, handlers and render *)

Record Props := { isOpen : bool; content : Js.value }.

(** The two [useState] cells of the component. *)
Record Hooks := { isEditing : bool; editedContent : Js.value }.

(** First render: [useState(false)] and [useState(content)]. *)
Definition mount (content : Js.value) : Hooks :=
  {| isEditing := false; editedContent := content |}.

Definition setIsEditing (b : bool) (h : Hooks) : Hooks :=
  {| isEditing := b; editedContent := editedContent h |}.

Definition setEditedContent (v : Js.value) (h : Hooks) : Hooks :=
  {| isEditing := isEditing h; editedContent := v |}.

(** The calls the component makes on the callbacks among its props. *)
Inductive Call :=
| onSave (arg : Js.value)
| onClose.

Definition handleSave (h : Hooks) : Hooks * list Call :=
  (setIsEditing false h, [onSave (editedContent h)]).

Definition handleCancel (p : Props) (h : Hooks) : Hooks :=
  setIsEditing false (setEditedContent (content p) h).

(** What is on screen: the content area and the footer's count. *)
Inductive Body :=
| Textarea (value : Js.value)
| Preview (children : Formatted).

Record View := {
  editButton : bool;  (* Edit is offered; otherwise Cancel and Save are *)
  body : Body;
  characters : nat
}.

Definition render (p : Props) (h : Hooks) : option View :=
  if negb (isOpen p) then None
  else Some {|
    editButton := negb (isEditing h);
    body := if isEditing h then Textarea (editedContent h)
            else Preview (formatContent (content p));
    characters := Js.length_or_0 (content p)
  |}.

(** The text the content area shows. *)
Definition shownText (v : View) (p : Props) : Js.value :=
  match body v with
  | Textarea value => value
  | Preview _ => content p
  end.

(** The events of the rendered elements.  An element that is not rendered
    has no handler to run, so its event leaves the cells as they are. *)
Inductive Event :=
| ClickEdit
| ClickCancel
| ClickSave
| Change (value : list N)
| ClickClose.

Definition handle (p : Props) (h : Hooks) (e : Event) : Hooks * list Call :=
  if negb (isOpen p) then (h, [])
  else match e with
       | ClickEdit =>
           if isEditing h then (h, []) else (setIsEditing true h, [])
       | ClickCancel =>
           if isEditing h then (handleCancel p h, []) else (h, [])
       | ClickSave =>
           if isEditing h then handleSave h else (h, [])
       | Change value =>
           if isEditing h then (setEditedContent (Js.Str value) h, [])
           else (h, [])
       | ClickClose => (h, [onClose])
       end.

(** The three states of the controller, read off what [render] returns. *)
Inductive Mode := Closed | Viewing | Editing.

Definition mode (p : Props) (h : Hooks) : Mode :=
  if negb (isOpen p) then Closed
  else if isEditing h then Editing else Viewing.

(** ** The owner: the Export page and its resume preview

    The page renders the preview element on every render, so the cells of
    the component live as long as the page does; [isOpen] only decides
    whether the component returns [null]. *)

Record Notification := {
  type : list N;
  title : list N;
  message : list N
}.

Record Export := {
  generatedResume : Js.value;  (* workflowData.generatedResume *)
  showModal : bool;
  modalContent : Notification;
  showResumePreview : bool;
  resumePreview : Hooks
}.

Definition openPage (resume : Js.value) : Export :=
  {| generatedResume := resume;
     showModal := false;
     modalContent := {| type := []; title := []; message := [] |};
     showResumePreview := false;
     resumePreview := mount resume |}.

Definition setShowModal (b : bool) (ex : Export) : Export :=
  {| generatedResume := generatedResume ex;
     showModal := b;
     modalContent := modalContent ex;
     showResumePreview := showResumePreview ex;
     resumePreview := resumePreview ex |}.

Definition setModalContent (n : Notification) (ex : Export) : Export :=
  {| generatedResume := generatedResume ex;
     showModal := showModal ex;
     modalContent := n;
     showResumePreview := showResumePreview ex;
     resumePreview := resumePreview ex |}.

Definition setShowResumePreview (b : bool) (ex : Export) : Export :=
  {| generatedResume := generatedResume ex;
     showModal := showModal ex;
     modalContent := modalContent ex;
     showResumePreview := b;
     resumePreview := resumePreview ex |}.

Definition setResumePreview (h : Hooks) (ex : Export) : Export :=
  {| generatedResume := generatedResume ex;
     showModal := showModal ex;
     modalContent := modalContent ex;
     showResumePreview := showResumePreview ex;
     resumePreview := h |}.

Definition showNotification (type title message : list N) (ex : Export)
  : Export :=
  setShowModal true
    (setModalContent {| type := type; title := title; message := message |}
       ex).

(** The body only shows a notification; [updatedContent] is not used. *)
Definition handleSaveResume (updatedContent : Js.value) (ex : Export)
  : Export :=
  showNotification (Js.lit "success") (Js.lit "Resume Updated")
    (Js.lit "Your resume has been updated successfully.") ex.

Definition resumeProps (ex : Export) : Props :=
  {| isOpen := showResumePreview ex; content := generatedResume ex |}.

(** The callbacks the page passes as [onSave] and [onClose]. *)
Definition deliver (ex : Export) (c : Call) : Export :=
  match c with
  | onSave arg => handleSaveResume arg ex
  | onClose => setShowResumePreview false ex
  end.

Inductive Action :=
| ClickPreview
| CloseNotification
| InPreview (e : Event).

(** One user action: the new page state and the callbacks it triggered. *)
Definition step (ex : Export) (a : Action) : Export * list Call :=
  match a with
  | ClickPreview => (setShowResumePreview true ex, [])
  | CloseNotification => (setShowModal false ex, [])
  | InPreview e =>
      let (h, calls) := handle (resumeProps ex) (resumePreview ex) e in
      (foldl deliver (setResumePreview h ex) calls, calls)
  end.

Fixpoint run (ex : Export) (actions : list Action) : Export * list Call :=
  match actions with
  | [] => (ex, [])
  | a :: rest =>
      let (ex1, calls1) := step ex a in
      let (ex2, calls2) := run ex1 rest in
      (ex2, calls1 ++ calls2)
  end.

Definition screen (ex : Export) : option View :=
  render (resumeProps ex) (resumePreview ex).

Definition pageMode (ex : Export) : Mode :=
  mode (resumeProps ex) (resumePreview ex).

(** The two texts of the controller as the page holds them. *)
Definition rawText (ex : Export) : Js.value := generatedResume ex.
Definition draftText (ex : Export) : Js.value :=
  editedContent (resumePreview ex).

(** ** Vocabulary of the statements *)

(** No whitespace at either end of a string. *)
Definition edgeFree (s : list N) : bool :=
  match s with
  | [] => true
  | c :: _ => negb (Js.isWhiteSpace c)
  end
  && match rev s with
     | [] => true
     | c :: _ => negb (Js.isWhiteSpace c)
     end.

(** The number of newline code units of a text. *)
Definition newlines (text : list N) : nat :=
  length (filter (fun c => c =? NEWLINE) text).

(** The conditions of [formatLine] as a rule table, in source order; the
    last rule is the unconditional [return]. *)
Definition rules : list (Role * (nat -> list N -> bool)) :=
  [ (blank, fun _ trimmedLine => isBlank trimmedLine);
    (person_name, isName);
    (contact_info, isContact);
    (section_header, fun _ trimmedLine => isSection trimmedLine);
    (job_header, fun _ trimmedLine => isJob trimmedLine);
    (bullet, fun _ trimmedLine => isBullet trimmedLine);
    (skill_entry, fun _ trimmedLine => isSkill trimmedLine);
    (paragraph, fun _ _ => true) ].

(** The role of the first rule of a table whose condition holds. *)
Fixpoint firstMatch (table : list (Role * (nat -> list N -> bool)))
  (index : nat) (trimmedLine : list N) : option Role :=
  match table with
  | [] => None
  | (r, condition) :: table' =>
      if condition index trimmedLine then Some r
      else firstMatch table' index trimmedLine
  end.

(** The parts of a split that are not the empty string. *)
Definition nonEmptyParts (parts : list (list N)) : list (list N) :=
  filter (fun part => negb (isBlank part)) parts.

(** The job-header rule as the specification words it: the line contains a
    vertical bar and splitting on it yields at least two non-empty parts. *)
Definition specJob (trimmedLine : list N) : bool :=
  Js.includes trimmedLine [BAR]
  && (2 <=? length (nonEmptyParts (Js.split BAR trimmedLine)))%nat.

(** An action other than a click on Save. *)
Definition notSave (a : Action) : bool :=
  match a with
  | InPreview ClickSave => false
  | _ => true
  end.

(** Outside an edit session the draft cell holds the raw text. *)
Definition synced (ex : Export) : Prop :=
  isEditing (resumePreview ex) = false -> draftText ex = rawText ex.

(** Carriage return, and a text with every newline preceded by one. *)
Definition CR : N := 13.

Fixpoint crlf (text : list N) : list N :=
  match text with
  | [] => []
  | c :: rest =>
      if c =? NEWLINE then CR :: NEWLINE :: crlf rest else c :: crlf rest
  end.

(** A call of the save callback. *)
Definition isOnSave (c : Call) : bool :=
  match c with
  | onSave _ => true
  | onClose => false
  end.

(** The actions of typing the given texts into the textarea, in order. *)
Definition typing (texts : list (list N)) : list Action :=
  map (fun value => InPreview (Change value)) texts.

(** ** The workflow context: [WorkflowProvider]

    The values held under the keys of [workflowData] are arbitrary
    JavaScript values; the provider never looks inside them, so their type
    is a parameter [V].  Steps are whole numbers. *)

Module WorkflowContext.

Record Workflow (V : Type) := {
  currentStep : Z;
  workflowData : gmap string V
}.

Arguments currentStep {V} _.
Arguments workflowData {V} _.

(** The object literal of the initial state and of [resetWorkflow]. *)
Definition initialData {V : Type} (null : V) : gmap string V :=
  <["resumeData"%string := null]>
    (<["jobsData"%string := null]>
       (<["selectedJob"%string := null]>
          (<["generatedResume"%string := null]>
             (<["generatedCoverLetter"%string := null]> ∅)))).

Definition initial {V : Type} (null : V) : Workflow V :=
  {| currentStep := 0; workflowData := initialData null |}.

(** [setWorkflowData(prev => ({ ...prev, [key]: value }))]. *)
Definition updateWorkflowData {V : Type} (key : string) (value : V)
  (w : Workflow V) : Workflow V :=
  {| currentStep := currentStep w;
     workflowData := <[key := value]> (workflowData w) |}.

(** [setCurrentStep(prev => Math.min(prev + 1, 4))]. *)
Definition nextStep {V : Type} (w : Workflow V) : Workflow V :=
  {| currentStep := Z.min (currentStep w + 1) 4;
     workflowData := workflowData w |}.

(** [setCurrentStep(prev => Math.max(prev - 1, 0))]. *)
Definition prevStep {V : Type} (w : Workflow V) : Workflow V :=
  {| currentStep := Z.max (currentStep w - 1) 0;
     workflowData := workflowData w |}.

Definition resetWorkflow {V : Type} (null : V) (w : Workflow V)
  : Workflow V :=
  initial null.

(** The four functions the context hands to its users. *)
Inductive Op (V : Type) :=
| Update (key : string) (value : V)
| Next
| Prev
| Reset.

Arguments Update {V} _ _.
Arguments Next {V}.
Arguments Prev {V}.
Arguments Reset {V}.

Definition apply {V : Type} (null : V) (w : Workflow V) (op : Op V)
  : Workflow V :=
  match op with
  | Update key value => updateWorkflowData key value w
  | Next => nextStep w
  | Prev => prevStep w
  | Reset => resetWorkflow null w
  end.

Definition applyAll {V : Type} (null : V) (w : Workflow V)
  (ops : list (Op V)) : Workflow V :=
  foldl (apply null) w ops.

(** The keys of the initial object. *)
Definition initialKeys : list string :=
  ["resumeData"; "jobsData"; "selectedJob"; "generatedResume";
   "generatedCoverLetter"]%string.

(** The header shows [Step {currentStep + 1} of {totalSteps}]. *)
Definition totalSteps : Z := 5.

Definition shownStep {V : Type} (w : Workflow V) : Z := currentStep w + 1.

End WorkflowContext.

(** ** The job search form: the list of job titles *)

Module JobSearch.

Record SearchParams := {
  job_titles : list (list N);
  location : list N;
  remote_only : bool;
  posted_within_days : Z;
  num_results : Z
}.

Definition initialParams : SearchParams :=
  {| job_titles := [Js.lit "Software Engineer"];
     location := Js.lit "United States";
     remote_only := false;
     posted_within_days := 7;
     num_results := 10 |}.

Definition setJobTitles (titles : list (list N)) (prev : SearchParams)
  : SearchParams :=
  {| job_titles := titles;
     location := location prev;
     remote_only := remote_only prev;
     posted_within_days := posted_within_days prev;
     num_results := num_results prev |}.

(** [array.filter((element, i) => keep(element, i))], from index [i]. *)
Fixpoint filterIndex {A : Type} (keep : A -> nat -> bool) (i : nat)
  (l : list A) : list A :=
  match l with
  | [] => []
  | x :: l' =>
      if keep x i then x :: filterIndex keep (S i) l'
      else filterIndex keep (S i) l'
  end.

Definition addJobTitle (prev : SearchParams) : SearchParams :=
  setJobTitles (job_titles prev ++ [[]]) prev.

Definition updateJobTitle (index : nat) (value : list N)
  (prev : SearchParams) : SearchParams :=
  setJobTitles
    (imap (fun i title => if (i =? index)%nat then value else title)
       (job_titles prev))
    prev.

Definition removeJobTitle (index : nat) (prev : SearchParams)
  : SearchParams :=
  setJobTitles
    (filterIndex (fun _ i => negb (i =? index)%nat) 0 (job_titles prev))
    prev.

(** [disabled={!searchParams.job_titles.some(title => title.trim())}]. *)
Definition searchDisabled (p : SearchParams) : bool :=
  negb (existsb (fun title => negb (Js.falsy (Js.Str (Js.trim title))))
          (job_titles p)).

(** What the user can do to the list: the input of row [index] and its
    Remove button exist for [index] below the length, the Remove buttons
    only while [job_titles.length > 1]. *)
Inductive Input :=
| ClickAdd
| TypeTitle (index : nat) (value : list N)
| ClickRemove (index : nat).

Definition input (p : SearchParams) (i : Input) : SearchParams :=
  match i with
  | ClickAdd => addJobTitle p
  | TypeTitle index value =>
      if (index <? length (job_titles p))%nat
      then updateJobTitle index value p else p
  | ClickRemove index =>
      if (1 <? length (job_titles p))%nat
         && (index <? length (job_titles p))%nat
      then removeJobTitle index p else p
  end.

End JobSearch.

(** ** The step indicator: [StepProgress] *)

Module StepProgress.

Inductive Status := completed | active | pending.

Record Step := {
  number : Z;
  title : list N;
  description : list N
}.

Definition steps : list Step :=
  [ {| number := 1; title := Js.lit "Job Search";
       description := Js.lit "Find relevant job postings" |};
    {| number := 2; title := Js.lit "Resume Upload";
       description := Js.lit "Upload and parse your resume" |};
    {| number := 3; title := Js.lit "Job Selection";
       description := Js.lit "Choose target positions" |};
    {| number := 4; title := Js.lit "AI Generation";
       description := Js.lit "Generate tailored documents" |};
    {| number := 5; title := Js.lit "Export";
       description := Js.lit "Download your documents" |} ].

Definition getStepStatus (currentStep stepNumber : Z) : Status :=
  if (stepNumber <? currentStep)%Z then completed
  else if (stepNumber =? currentStep)%Z then active
  else pending.

(** The status of each step, in the order the steps are rendered. *)
Definition statuses (currentStep : Z) : list Status :=
  map (fun step => getStepStatus currentStep (number step)) steps.

(** The connectors: one after each step but the last, green when the step
    on its left has a number below the current step. *)
Definition connectors (currentStep : Z) : list bool :=
  omap (fun x => x)
    (imap (fun index step =>
             if (index <? length steps - 1)%nat
             then Some (number step <? currentStep)%Z else None)
       steps).

End StepProgress.

(** ** The Export page: downloads *)

Module Download.

(** What the awaited calls of [downloadFile] come to: [fetch] rejects, the
    response is not [ok], [response.blob()] rejects, or the blob arrives. *)
Inductive Outcome :=
| FetchRejected
| ResponseNotOk
| BlobRejected
| BlobReady (blob : list N).

(** What [downloadFile] does to the outside: the POST request with its
    JSON body, the click on the anchor that saves the blob under the file
    name, and [console.error]. *)
Inductive Effect :=
| Fetch (url : list N) (content : Js.value) (filename format : list N)
| SaveAs (filename blob : list N)
| ConsoleError.

(** The page with its [isExporting] cell. *)
Record Page := { isExporting : bool; export : Export }.

Definition setIsExporting (b : bool) (page : Page) : Page :=
  {| isExporting := b; export := export page |}.

Definition notify (type title message : list N) (page : Page) : Page :=
  {| isExporting := isExporting page;
     export := showNotification type title message (export page) |}.

(** The body of [try], [catch] and [finally] once [fetch] has settled. *)
Definition settle (filename : list N) (outcome : Outcome) (page : Page)
  : Page * list Effect :=
  let (page', effects) :=
    match outcome with
    | BlobReady blob =>
        (notify (Js.lit "success") (Js.lit "Download Complete")
           (filename ++ Js.lit " has been downloaded successfully!") page,
         [SaveAs filename blob])
    | _ =>
        (notify (Js.lit "error") (Js.lit "Download Failed")
           (Js.lit "Unable to download the file. Please try again.") page,
         [ConsoleError])
    end in
  (setIsExporting false page', effects).

Definition downloadFile (content : Js.value) (filename format : list N)
  (outcome : Outcome) (page : Page) : Page * list Effect :=
  let started := setIsExporting true page in
  let request := Fetch (Js.lit "/api/export") content filename format in
  let (page', effects) := settle filename outcome started in
  (page', request :: effects).

Definition handleDownloadResume (outcome : Outcome) (page : Page)
  : Page * list Effect :=
  if Js.falsy (generatedResume (export page)) then (page, [])
  else downloadFile (generatedResume (export page))
         (Js.lit "customized_resume.pdf") (Js.lit "pdf") outcome page.

Definition isSaveAs (e : Effect) : bool :=
  match e with
  | SaveAs _ _ => true
  | _ => false
  end.

End Download.

(** ** The generation page: [handleGenerate]

    The page reads workflow values, tests them for truthiness, reads
    properties of the selected job and supplies the empty string where one
    is falsy.  These operations of the language are an interface over the
    value type of the workflow. *)

Class Values (V : Type) := {
  undefined : V;
  falsy : V -> bool;
  str : list N -> V;
  field : string -> V -> V
}.

(** Strings, [null] and [undefined]: none of them has a property. *)
#[export] Instance Values_Js : Values Js.value := {
  undefined := Js.undefined;
  falsy := Js.falsy;
  str := Js.Str;
  field := fun _ _ => Js.undefined
}.

Module AIGeneration.

Import WorkflowContext.

Record Page := {
  isGenerating : bool;
  generationStep : list N;
  showModal : bool;
  modalContent : Notification
}.

Definition showNotification (type title message : list N) (page : Page)
  : Page :=
  {| isGenerating := isGenerating page;
     generationStep := generationStep page;
     showModal := true;
     modalContent := {| type := type; title := title; message := message |} |}.

(** The cells as [finally] leaves them. *)
Definition finish (page : Page) : Page :=
  {| isGenerating := false;
     generationStep := [];
     showModal := showModal page;
     modalContent := modalContent page |}.

(** The JSON body of a generation request. *)
Record Request (V : Type) := {
  contentType : list N;
  resume_data : V;
  job_description : V;
  job_title : V;
  company_name : V
}.

Arguments contentType {V} _.
Arguments resume_data {V} _.
Arguments job_description {V} _.
Arguments job_title {V} _.
Arguments company_name {V} _.

(** What [handleGenerate] does to the outside: a POST to the generation
    endpoint, [console.error], and the timer that after 1500 ms calls
    [nextStep()] and navigates to step 4. *)
Inductive Effect (V : Type) :=
| Fetch (url : list N) (body : Request V)
| ConsoleError
| Timeout (delay : Z).

Arguments Fetch {V} _ _.
Arguments ConsoleError {V}.
Arguments Timeout {V} _.

(** What an awaited request comes to: the [content] of the JSON answer, or
    a throw ([fetch] or [json()] rejects, the response is not [ok]). *)
Inductive Outcome (V : Type) :=
| Failed
| Content (content : V).

Arguments Failed {V}.
Arguments Content {V} _.

(** [workflowData.key], [undefined] for a key that is not there. *)
Definition read {V : Type} `{Values V} (key : string) (w : Workflow V) : V :=
  default undefined (workflowData w !! key).

(** [v || ''']. *)
Definition orEmpty {V : Type} `{Values V} (v : V) : V :=
  if falsy v then str [] else v.

Definition body {V : Type} `{Values V} (kind : list N) (w : Workflow V)
  : Request V :=
  {| contentType := kind;
     resume_data := read "resumeData" w;
     job_description := orEmpty (field "description" (read "selectedJob" w));
     job_title := orEmpty (field "title" (read "selectedJob" w));
     company_name := orEmpty (field "company" (read "selectedJob" w)) |}.

Definition request {V : Type} `{Values V} (kind : list N) (w : Workflow V)
  : Effect V :=
  Fetch (Js.lit "/api/ai/generate") (body kind w).

Definition failed (page : Page) : Page :=
  finish
    (showNotification (Js.lit "error") (Js.lit "Generation Failed")
       (Js.lit "Unable to generate documents. Please try again.") page).

(** [handleGenerate], given what the two requests come to.  Both bodies are
    built from the [workflowData] the handler was created with. *)
Definition handleGenerate {V : Type} `{Values V}
  (resume cover : Outcome V) (w : Workflow V) (page : Page)
  : Workflow V * Page * list (Effect V) :=
  if falsy (read "resumeData" w) || falsy (read "selectedJob" w) then
    (w,
     showNotification (Js.lit "error") (Js.lit "Missing Data")
       (Js.lit "Please ensure you have uploaded a resume and selected a job.")
       page,
     [])
  else
    match resume with
    | Failed =>
        (w, failed page, [request (Js.lit "resume") w; ConsoleError])
    | Content resumeContent =>
        let w1 := updateWorkflowData "generatedResume" resumeContent w in
        match cover with
        | Failed =>
            (w1, failed page,
             [request (Js.lit "resume") w;
              request (Js.lit "cover_letter") w; ConsoleError])
        | Content coverContent =>
            (updateWorkflowData "generatedCoverLetter" coverContent w1,
             finish
               (showNotification (Js.lit "success")
                  (Js.lit "Generation Complete")
                  (Js.lit
                     "Your personalized resume and cover letter are ready!")
                  page),
             [request (Js.lit "resume") w;
              request (Js.lit "cover_letter") w; Timeout 1500])
        end
    end.

Definition isFetch {V : Type} (e : Effect V) : bool :=
  match e with
  | Fetch _ _ => true
  | _ => false
  end.

End AIGeneration.

(** * Properties *)

Example formatLine_skills :
  formatLine 3 (Js.lit "SKILLS") = SectionHeader (Js.lit "SKILLS").
Proof. reflexivity. Qed.

Example formatLine_bullet :
  formatLine 7 (BULLET :: Js.lit " Led a team of 5 engineers")
  = Bullet (Js.lit "Led a team of 5 engineers").
Proof. reflexivity. Qed.

Example formatLine_languages :
  formatLine 9 (Js.lit "Languages: English, Spanish")
  = SkillEntry (Js.lit "Languages") (Js.lit "English, Spanish").
Proof. reflexivity. Qed.

(** ** Strings: [trim] *)

Section Trim.

Import Js.

Lemma trimStart_all_ws (pre s : list N) :
  forallb isWhiteSpace pre = true -> trimStart (pre ++ s) = trimStart s.
Proof.
  induction pre as [|c pre IH]; simpl; [reflexivity|].
  intros H. apply andb_true_iff in H as [Hc Hpre].
  rewrite Hc. auto.
Qed.

Lemma trimStart_nil_iff (s : list N) :
  trimStart s = [] <-> forallb isWhiteSpace s = true.
Proof.
  induction s as [|c s IH]; simpl; [tauto|].
  destruct (isWhiteSpace c); simpl; [exact IH|].
  split; discriminate.
Qed.

Lemma trimStart_head (s r : list N) (c : N) :
  trimStart s = c :: r -> isWhiteSpace c = false.
Proof.
  induction s as [|d s IH]; simpl; [discriminate|].
  destruct (isWhiteSpace d) eqn:Hd; [exact IH|].
  intros [= <- _]. exact Hd.
Qed.

Lemma trimStart_fixed (s : list N) (c : N) :
  isWhiteSpace c = false -> trimStart (c :: s) = c :: s.
Proof. intros H. simpl. now rewrite H. Qed.

(** [trimStart] cuts a whitespace prefix and nothing else. *)
Lemma trimStart_suffix (s : list N) :
  exists pre, forallb isWhiteSpace pre = true /\ s = pre ++ trimStart s.
Proof.
  induction s as [|c s (pre & Hpre & Hs)]; simpl.
  - exists []. split; reflexivity.
  - destruct (isWhiteSpace c) eqn:Hc.
    + exists (c :: pre). simpl. rewrite Hc, Hpre. split; [reflexivity|].
      now f_equal.
    + exists []. split; reflexivity.
Qed.

Lemma trimStart_app_ws (s post : list N) :
  forallb isWhiteSpace post = true ->
  trimStart (s ++ post) =
    match trimStart s with [] => [] | _ :: _ => trimStart s ++ post end.
Proof.
  intros Hpost. induction s as [|c s IH]; simpl.
  - now apply trimStart_nil_iff.
  - destruct (isWhiteSpace c); [exact IH | reflexivity].
Qed.

Lemma trimEnd_all_ws (s post : list N) :
  forallb isWhiteSpace post = true -> trimEnd (s ++ post) = trimEnd s.
Proof.
  intros H. unfold trimEnd. rewrite rev_app_distr.
  rewrite trimStart_all_ws; [reflexivity|].
  rewrite forallb_forall in *. intros c Hc. apply H.
  now apply in_rev.
Qed.

Lemma trimEnd_nil : trimEnd [] = [].
Proof. reflexivity. Qed.

(** [trimEnd] cuts a whitespace suffix and nothing else. *)
Lemma trimEnd_prefix (s : list N) :
  exists post, forallb isWhiteSpace post = true /\ s = trimEnd s ++ post.
Proof.
  destruct (trimStart_suffix (rev s)) as (pre & Hpre & Hs).
  exists (rev pre). split.
  - rewrite forallb_forall in *. intros c Hc. apply Hpre.
    now apply in_rev in Hc.
  - unfold trimEnd. rewrite <- rev_app_distr, <- Hs. symmetry.
    apply rev_involutive.
Qed.

Lemma trimEnd_fixed (s : list N) (c : N) :
  isWhiteSpace c = false -> trimEnd (s ++ [c]) = s ++ [c].
Proof.
  intros H. unfold trimEnd. rewrite rev_app_distr. simpl. rewrite H.
  simpl. now rewrite rev_involutive.
Qed.

(** The last code unit that [trimEnd] keeps is not whitespace. *)
Lemma trimEnd_last (s : list N) :
  match rev (trimEnd s) with
  | [] => True
  | c :: _ => isWhiteSpace c = false
  end.
Proof.
  unfold trimEnd. rewrite rev_involutive.
  destruct (trimStart (rev s)) as [|c r] eqn:E; [exact I|].
  eapply trimStart_head; eassumption.
Qed.

(** [trimEnd] keeps a first code unit that is not whitespace. *)
Lemma trimEnd_keeps_head (s : list N) (c : N) :
  isWhiteSpace c = false -> exists r, trimEnd (c :: s) = c :: r.
Proof.
  intros Hc. destruct (trimEnd_prefix (c :: s)) as (post & Hpost & E).
  destruct (trimEnd (c :: s)) as [|d r] eqn:Et.
  - simpl in E. subst post. simpl in Hpost. now rewrite Hc in Hpost.
  - injection E as -> _. now exists r.
Qed.

Lemma trim_edgeFree (s : list N) : edgeFree (trim s) = true.
Proof.
  unfold edgeFree, trim. apply andb_true_iff. split.
  - destruct (trimStart s) as [|c r] eqn:E; [reflexivity|].
    pose proof (trimStart_head _ _ _ E) as Hc.
    destruct (trimEnd_keeps_head r c Hc) as (r' & ->). now rewrite Hc.
  - pose proof (trimEnd_last (trimStart s)) as H.
    destruct (rev (trimEnd (trimStart s))); [reflexivity|]. now rewrite H.
Qed.

Lemma edgeFree_trim (s : list N) : edgeFree s = true -> trim s = s.
Proof.
  unfold edgeFree, trim. intros H. apply andb_true_iff in H as [Hh Hl].
  destruct s as [|c s]; [reflexivity|].
  apply negb_true_iff in Hh. rewrite (trimStart_fixed _ _ Hh).
  destruct (rev (c :: s)) as [|d r] eqn:E.
  - apply (f_equal (@length N)) in E. rewrite length_rev in E. discriminate.
  - apply negb_true_iff in Hl.
    assert (Es : c :: s = rev r ++ [d]).
    { rewrite <- (rev_involutive (c :: s)), E. reflexivity. }
    rewrite Es. now apply trimEnd_fixed.
Qed.

(** Whitespace around a line does not survive [trim]. *)
Lemma trim_padding (pre s post : list N) :
  forallb isWhiteSpace pre = true ->
  forallb isWhiteSpace post = true ->
  trim (pre ++ s ++ post) = trim s.
Proof.
  intros Hpre Hpost. unfold trim.
  rewrite (trimStart_all_ws _ _ Hpre), (trimStart_app_ws _ _ Hpost).
  destruct (trimStart s); [reflexivity|].
  now apply trimEnd_all_ws.
Qed.

Lemma trimStart_In (s : list N) (c : N) :
  isWhiteSpace c = false -> In c (trimStart s) <-> In c s.
Proof.
  intros Hc. induction s as [|d s IH]; simpl; [tauto|].
  destruct (isWhiteSpace d) eqn:Hd; [|reflexivity].
  rewrite IH. split; [tauto|]. intros [->|H]; [congruence | exact H].
Qed.

(** [trim] neither removes nor adds a code unit that is not whitespace. *)
Lemma trim_In (s : list N) (c : N) :
  isWhiteSpace c = false -> In c (trim s) <-> In c s.
Proof.
  intros Hc. unfold trim, trimEnd.
  rewrite <- in_rev, (trimStart_In _ _ Hc), <- in_rev.
  now apply trimStart_In.
Qed.

End Trim.

(** ** Strings: [includes], [split] and [join] *)

Section Search.

Import Js.

Lemma startsWith_incl (p s : list N) :
  startsWith s p = true -> forall c, In c p -> In c s.
Proof.
  revert s. induction p as [|a p IH]; intros s H c Hc; [destruct Hc|].
  destruct s as [|d s]; simpl in H; [discriminate|].
  apply andb_true_iff in H as [Hd Hp]. apply N.eqb_eq in Hd. subst d.
  destruct Hc as [<-|Hc]; [now left | right; eauto].
Qed.

(** Every code unit of a substring found in [s] is a code unit of [s]. *)
Lemma includes_incl (s sub : list N) :
  includes s sub = true -> forall c, In c sub -> In c s.
Proof.
  induction s as [|d s IH]; intros H c Hc; simpl in H.
  - rewrite orb_false_r in H. exact (startsWith_incl sub [] H c Hc).
  - apply orb_true_iff in H as [H|H].
    + exact (startsWith_incl sub (d :: s) H c Hc).
    + right. eauto.
Qed.

Lemma includes_char (s : list N) (c : N) :
  includes s [c] = true <-> In c s.
Proof.
  split.
  - intros H. apply (includes_incl _ _ H). now left.
  - induction s as [|d s IH]; simpl; [tauto|].
    intros [->|H].
    + rewrite N.eqb_refl. now destruct s.
    + rewrite (IH H). apply orb_true_r.
Qed.

Lemma includes_char_false (s : list N) (c : N) :
  includes s [c] = false <-> ~ In c s.
Proof.
  rewrite <- includes_char. destruct (includes s [c]); split; congruence.
Qed.

(** A code unit that is not whitespace is in the trimmed line exactly when
    it is in the line. *)
Lemma includes_char_trim (s : list N) (c : N) :
  isWhiteSpace c = false -> includes (trim s) [c] = includes s [c].
Proof.
  intros Hc. apply eq_true_iff_eq.
  rewrite !includes_char. now apply trim_In.
Qed.

Lemma split_not_nil (sep : N) (s : list N) : split sep s <> [].
Proof.
  destruct s as [|c s]; simpl; [discriminate|].
  destruct (c =? sep); [discriminate|].
  destruct (split sep s); discriminate.
Qed.

(** One part more than there are separators. *)
Lemma split_length (sep : N) (s : list N) :
  length (split sep s) = S (length (filter (fun c => c =? sep) s)).
Proof.
  induction s as [|c s IH]; simpl; [reflexivity|].
  destruct (c =? sep) eqn:E.
  - rewrite filter_cons. rewrite E. simpl. now rewrite IH.
  - rewrite filter_cons. rewrite E. simpl. rewrite <- IH.
    destruct (split sep s) eqn:Es; [|reflexivity].
    now apply split_not_nil in Es.
Qed.

Lemma split_length_In (sep : N) (s : list N) :
  In sep s -> (2 <= length (split sep s))%nat.
Proof.
  intros H. rewrite split_length.
  assert (Hf : In sep (filter (fun c => c =? sep) s)).
  { apply list_elem_of_In, list_elem_of_filter. split.
    - now rewrite N.eqb_refl.
    - now apply list_elem_of_In. }
  destruct (filter (fun c => c =? sep) s); [destruct Hf | simpl; lia].
Qed.

Lemma split_length_not_In (sep : N) (s : list N) :
  ~ In sep s -> split sep s = [s].
Proof.
  induction s as [|c s IH]; simpl; [reflexivity|].
  intros H. destruct (N.eqb_spec c sep) as [->|Hne]; [tauto|].
  rewrite IH; [reflexivity | tauto].
Qed.

(** The parts, joined again by the separator, are the string. *)
Lemma join_split (sep : N) (s : list N) : join sep (split sep s) = s.
Proof.
  induction s as [|c s IH]; simpl; [reflexivity|].
  destruct (N.eqb_spec c sep) as [->|Hne].
  - destruct (split sep s) eqn:Es.
    + now apply split_not_nil in Es.
    + simpl in *. now rewrite IH.
  - destruct (split sep s) as [|part parts] eqn:Es.
    + now apply split_not_nil in Es.
    + destruct parts; simpl in *; now rewrite <- IH.
Qed.

(** No part contains the separator. *)
Lemma split_parts (sep : N) (s : list N) :
  forall part, In part (split sep s) -> ~ In sep part.
Proof.
  induction s as [|c s IH]; simpl.
  - intros part [<-|[]] [].
  - destruct (N.eqb_spec c sep) as [->|Hne].
    + intros part [<-|H]; [intros [] | now apply IH].
    + destruct (split sep s) as [|p ps] eqn:Es.
      * intros part [<-|[]] [E|[]]. congruence.
      * intros part [<-|H].
        -- intros [E|H]; [congruence|]. apply (IH p); [now left | exact H].
        -- apply IH. now right.
Qed.

(** [split] cuts at the first separator: the first part is what precedes
    it and the other parts, joined again, are what follows it. *)
Lemma split_first_rest (sep : N) (s : list N) :
  In sep s ->
  s = first (split sep s) ++ sep :: join sep (slice 1 (split sep s)).
Proof.
  intros H. pose proof (join_split sep s) as J.
  pose proof (split_length_In sep s H) as L.
  destruct (split sep s) as [|p [|q ps]]; simpl in L; try lia.
  unfold slice. simpl in *. now rewrite J.
Qed.

End Search.

(** ** The classifier *)

Section Classifier.

Import Js.

Lemma matchesHeader_class (t : list N) :
  matchesHeader t = true -> forall c, In c t -> headerClass c = true.
Proof.
  unfold matchesHeader. destruct t as [|d t]; [discriminate|].
  intros H. now apply forallb_forall.
Qed.

Lemma matchesHeader_excludes (t : list N) (c : N) :
  matchesHeader t = true -> headerClass c = false ->
  includes t [c] = false.
Proof.
  intros Ht Hc. apply includes_char_false. intros Hin.
  rewrite (matchesHeader_class t Ht c Hin) in Hc. discriminate.
Qed.

Lemma matchesHeader_excludes_sub (t sub : list N) (c : N) :
  matchesHeader t = true -> In c sub -> headerClass c = false ->
  includes t sub = false.
Proof.
  intros Ht Hsub Hc. destruct (includes t sub) eqn:E; [|reflexivity].
  pose proof (includes_incl t sub E c Hsub) as Hin.
  rewrite (matchesHeader_class t Ht c Hin) in Hc. discriminate.
Qed.

(** A line of the section-header pattern that is not the name line is a
    section header or a paragraph. *)
Lemma formatLine_header_pattern (index : nat) (line : list N) :
  index <> 0%nat ->
  matchesHeader (trim line) = true ->
  (3 < length (trim line))%nat ->
  formatLine index line =
    if existsb (fun section => includes (trim line) section) sections
    then SectionHeader (trim line) else Paragraph (trim line).
Proof.
  intros Hi Hm Hl. unfold formatLine. cbv zeta.
  set (t := trim line) in *.
  assert (Hblank : isBlank t = false).
  { destruct t; [discriminate Hm | reflexivity]. }
  assert (Hname : isName index t = false).
  { unfold isName. destruct index; [contradiction | reflexivity]. }
  assert (Hat : includes t [AT] = false).
  { now apply matchesHeader_excludes. }
  assert (Hbar : includes t [BAR] = false).
  { now apply matchesHeader_excludes. }
  assert (Hcolon : includes t [COLON] = false).
  { now apply matchesHeader_excludes. }
  assert (Hlinked : includes t (lit "linkedin.com") = false).
  { apply (matchesHeader_excludes_sub t _ 108 Hm); [|reflexivity].
    cbv. tauto. }
  assert (Hbullet : isBullet t = false).
  { unfold isBullet. destruct (startsWith t [BULLET]) eqn:E; [|reflexivity].
    assert (Hin : In BULLET t).
    { apply (startsWith_incl [BULLET] t E). now left. }
    pose proof (matchesHeader_class t Hm _ Hin) as C. discriminate C. }
  rewrite Hblank, Hname. unfold isContact, isSection, isJob, isSkill.
  rewrite Hat, Hbar, Hlinked, Hcolon, Hm, Hbullet.
  apply Nat.ltb_lt in Hl. rewrite Hl. simpl.
  reflexivity.
Qed.

Lemma matchesName_class (t : list N) :
  matchesName t = true -> forall c, In c t -> nameClass c = true.
Proof.
  unfold matchesName. destruct t as [|d t]; [discriminate|].
  intros H. now apply forallb_forall.
Qed.

(** [formatLine] as a function of the trimmed line: the branch taken. *)
Lemma role_formatLine (index : nat) (line : list N) :
  role (formatLine index line) =
    let t := trim line in
    if isBlank t then blank
    else if isName index t then person_name
    else if isContact index t then contact_info
    else if isSection t then section_header
    else if isJob t then job_header
    else if isBullet t then bullet
    else if isSkill t then skill_entry
    else paragraph.
Proof.
  unfold formatLine. cbv zeta.
  repeat match goal with
         | |- context [if ?b then _ else _] => destruct b; try reflexivity
         end.
Qed.

(** A line that holds an at sign is contact information. *)
Lemma formatLine_at (index : nat) (line : list N) :
  includes line [AT] = true ->
  formatLine index line = ContactInfo (trim line).
Proof.
  intros H. rewrite <- (includes_char_trim line AT eq_refl) in H.
  pose proof (proj1 (includes_char _ _) H) as Hin.
  unfold formatLine. cbv zeta. set (t := trim line) in *.
  assert (Hblank : isBlank t = false) by (destruct t; [destruct Hin | reflexivity]).
  assert (Hname : isName index t = false).
  { unfold isName. destruct (matchesName t) eqn:E.
    - pose proof (matchesName_class t E AT Hin) as C. discriminate C.
    - now rewrite andb_false_r. }
  rewrite Hblank, Hname. unfold isContact. now rewrite H.
Qed.

End Classifier.

(** ** Claims about the classifier *)

(** C1, as stated, fails: the line [SKILLSET BUILDING] holds the title
    [SKILLS] as a substring, so below the first line it is a section header
    and not a paragraph. *)
Lemma C1_skillset_building_is_section_header :
  role (formatLine 1 (Js.lit "SKILLSET BUILDING")) = section_header
  /\ role (formatLine 1 (Js.lit "SKILLSET BUILDING")) <> paragraph.
Proof. split; [reflexivity | discriminate]. Qed.

(** C1, amended: a line that is not the first and whose trimmed text is made
    of capitals, whitespace and ampersands and is longer than 3 is a section
    header exactly when it holds one of the vocabulary titles as a
    substring, and is a paragraph otherwise; so [SKILLS] is a section header
    and so is [SKILLSET BUILDING]. *)
Theorem C1_section_header_iff_vocabulary (index : nat) (line : list N) :
  index <> 0%nat ->
  matchesHeader (Js.trim line) = true ->
  (3 < length (Js.trim line))%nat ->
  (role (formatLine index line) = section_header <->
     exists section,
       In section sections /\ Js.includes (Js.trim line) section = true)
  /\ (role (formatLine index line) <> section_header ->
      role (formatLine index line) = paragraph)
  /\ role (formatLine index (Js.lit "SKILLS")) = section_header
  /\ role (formatLine index (Js.lit "SKILLSET BUILDING")) = section_header.
Proof.
  intros Hi Hm Hl.
  rewrite (formatLine_header_pattern index line Hi Hm Hl).
  split; [|split; [|split]].
  - destruct (existsb _ sections) eqn:E; simpl.
    + split; [intros _ | reflexivity].
      apply existsb_exists in E as (section & Hin & Hs).
      exists section. split; assumption.
    + split; [discriminate|]. intros (section & Hin & Hs).
      assert (existsb (fun section => Js.includes (Js.trim line) section)
                sections = true) as E'.
      { apply existsb_exists. exists section. split; assumption. }
      congruence.
  - destruct (existsb _ sections); simpl; [congruence | reflexivity].
  - rewrite formatLine_header_pattern; [reflexivity | exact Hi | reflexivity |].
    vm_compute. lia.
  - rewrite formatLine_header_pattern; [reflexivity | exact Hi | reflexivity |].
    vm_compute. lia.
Qed.

(** C1 on the padded line [WORK EXPERIENCE] at index 4. *)
Lemma C1_section_header_iff_vocabulary_witness :
  role (formatLine 4 (Js.lit "  WORK EXPERIENCE ")) = section_header <->
  exists section,
    In section sections
    /\ Js.includes (Js.trim (Js.lit "  WORK EXPERIENCE ")) section = true.
Proof.
  refine (proj1 (C1_section_header_iff_vocabulary 4
                   (Js.lit "  WORK EXPERIENCE ") _ _ _)).
  - discriminate.
  - reflexivity.
  - vm_compute. lia.
Defined.

(** C6, as stated, fails: the line [Acme Corp |] at index 7 reaches the
    job-header rule and is a job header, yet splitting it on the bar yields
    one non-empty part. *)
Lemma C6_trailing_bar_is_job_header :
  let line := Js.lit "Acme Corp |" in
  let t := Js.trim line in
  isBlank t = false /\ isName 7 t = false /\ isContact 7 t = false
  /\ isSection t = false
  /\ role (formatLine 7 line) = job_header
  /\ nonEmptyParts (Js.split BAR t) = [Js.lit "Acme Corp "]
  /\ specJob t = false.
Proof. repeat split; reflexivity. Qed.

(** C6, amended: a line that reaches the job-header rule is a job header
    exactly when its trimmed text contains a vertical bar (splitting on the
    bar then always yields at least 2 parts, empty ones included);
    otherwise the later rules decide: bullet, skill entry, paragraph. *)
Theorem C6_job_header_iff_bar (index : nat) (line : list N) :
  isBlank (Js.trim line) = false ->
  isName index (Js.trim line) = false ->
  isContact index (Js.trim line) = false ->
  isSection (Js.trim line) = false ->
  (role (formatLine index line) = job_header <->
     Js.includes (Js.trim line) [BAR] = true)
  /\ (Js.includes (Js.trim line) [BAR] = true ->
      (2 <= length (Js.split BAR (Js.trim line)))%nat)
  /\ (Js.includes (Js.trim line) [BAR] = false ->
      role (formatLine index line) =
        if isBullet (Js.trim line) then bullet
        else if isSkill (Js.trim line) then skill_entry
        else paragraph).
Proof.
  intros Hblank Hname Hcontact Hsection.
  rewrite role_formatLine. cbv zeta.
  rewrite Hblank, Hname, Hcontact, Hsection. unfold isJob.
  assert (Hlen : Js.includes (Js.trim line) [BAR] = true ->
                 (2 <= length (Js.split BAR (Js.trim line)))%nat).
  { intros H. now apply split_length_In, includes_char. }
  split; [|split].
  - destruct (Js.includes (Js.trim line) [BAR]) eqn:E; cbn [andb].
    + apply Nat.leb_le in Hlen; [|reflexivity]. rewrite Hlen. tauto.
    + split; [|discriminate].
      destruct (isBullet _); [discriminate|].
      destruct (isSkill _); discriminate.
  - exact Hlen.
  - intros ->. reflexivity.
Qed.

(** C6 on the line [Acme Corp |] at index 7. *)
Lemma C6_job_header_iff_bar_witness :
  role (formatLine 7 (Js.lit "Acme Corp |")) = job_header <->
  Js.includes (Js.trim (Js.lit "Acme Corp |")) [BAR] = true.
Proof.
  refine (proj1 (C6_job_header_iff_bar 7 (Js.lit "Acme Corp |") _ _ _ _));
    reflexivity.
Defined.

(** C7: [formatContent] is a total function of the text.  The empty text
    gives no block.  Any other text gives one block per line in line order:
    the lines are what lies between the newlines, one more than there are
    newlines, and block [i] is the classification of line [i].  A line that
    no condition matches is a paragraph. *)
Theorem C7_one_block_per_line (text : list N) :
  let blocks := blocksOf (formatContent (Js.Str text)) in
  let lines := Js.split NEWLINE text in
  Js.join NEWLINE lines = text
  /\ (forall line, In line lines -> ~ In NEWLINE line)
  /\ length lines = S (newlines text)
  /\ length blocks = match text with [] => 0%nat | _ :: _ => length lines end
  /\ (forall i, (i < length blocks)%nat ->
        blocks !! i = formatLine i <$> lines !! i)
  /\ (forall index line,
        isBlank (Js.trim line) = false ->
        isName index (Js.trim line) = false ->
        isContact index (Js.trim line) = false ->
        isSection (Js.trim line) = false ->
        isJob (Js.trim line) = false ->
        isBullet (Js.trim line) = false ->
        isSkill (Js.trim line) = false ->
        formatLine index line = Paragraph (Js.trim line)).
Proof.
  cbv zeta. split; [apply join_split|].
  split; [apply split_parts|].
  split; [apply split_length|].
  split; [|split].
  - destruct text as [|c text]; [reflexivity|].
    unfold formatContent. cbn [Js.falsy blocksOf]. apply length_imap.
  - destruct text as [|c text]; [simpl; lia|].
    intros i _. unfold formatContent. cbn [Js.falsy blocksOf].
    apply list_lookup_imap.
  - intros index line H1 H2 H3 H4 H5 H6 H7. unfold formatLine. cbv zeta.
    now rewrite H1, H2, H3, H4, H5, H6, H7.
Qed.

(** C7 on a text of two lines, an empty one and [EDUCATION]. *)
Lemma C7_one_block_per_line_witness :
  blocksOf (formatContent (Js.Str (NEWLINE :: Js.lit "EDUCATION"))) !! 1%nat
  = Some (SectionHeader (Js.lit "EDUCATION")).
Proof.
  refine (proj1 (proj2 (proj2 (proj2 (proj2
            (C7_one_block_per_line (NEWLINE :: Js.lit "EDUCATION")))))) 1%nat _).
  vm_compute. lia.
Defined.

(** C8: the role of a line is the role of the first rule, in the order
    blank, person name, contact info, section header, job header, bullet,
    skill entry, paragraph, whose condition holds.  A line among the first
    5 that contains a vertical bar and an at sign is contact info, so it is
    neither a job header nor a skill entry; [John Doe | john@example.com]
    at index 0 is contact info. *)
Theorem C8_first_match_wins (index : nat) (line : list N) :
  map fst rules =
    [blank; person_name; contact_info; section_header; job_header; bullet;
     skill_entry; paragraph]
  /\ firstMatch rules index (Js.trim line) = Some (role (formatLine index line))
  /\ ((index < 5)%nat ->
      Js.includes line [BAR] = true -> Js.includes line [AT] = true ->
      role (formatLine index line) = contact_info
      /\ role (formatLine index line) <> job_header
      /\ role (formatLine index line) <> skill_entry)
  /\ role (formatLine 0 (Js.lit "John Doe | john@example.com")) = contact_info.
Proof.
  split; [reflexivity|]. split; [|split].
  - rewrite role_formatLine. cbv zeta. unfold rules, firstMatch.
    repeat match goal with
           | |- context [if ?b then _ else _] => destruct b; try reflexivity
           end.
  - intros _ _ Hat. rewrite (formatLine_at index line Hat). simpl.
    repeat split; discriminate.
  - reflexivity.
Qed.

(** C8 on a line with a bar and an at sign at index 2. *)
Lemma C8_first_match_wins_witness :
  role (formatLine 2 (Js.lit "Jane Roe | jane@example.org")) = contact_info.
Proof.
  refine (proj1 (proj1 (proj2 (proj2
            (C8_first_match_wins 2 (Js.lit "Jane Roe | jane@example.org"))))
            _ _ _)).
  - lia.
  - reflexivity.
  - reflexivity.
Defined.

(** The label of a skill entry, the key followed by a colon, has no
    whitespace at either end. *)
Lemma skillLabel_edgeFree (t : list N) :
  edgeFree t = true -> In COLON t ->
  edgeFree (skillLabel (Js.first (Js.split COLON t))) = true.
Proof.
  intros Ht Hin. pose proof (split_first_rest COLON t Hin) as E.
  destruct (Js.first (Js.split COLON t)) as [|c key]; [reflexivity|].
  unfold skillLabel, edgeFree. rewrite rev_unit. cbn [app].
  rewrite E in Ht. unfold edgeFree in Ht. cbn [app] in Ht.
  apply andb_true_iff in Ht as [-> _]. reflexivity.
Qed.

(** C9, as stated, fails: the key of a skill entry is the text before the
    first colon as it stands, so [Languages : English] has the key
    [Languages ] with its trailing space. *)
Lemma C9_skill_key_keeps_trailing_space :
  formatLine 1 (Js.lit "Languages : English")
  = SkillEntry (Js.lit "Languages ") (Js.lit "English")
  /\ forallb edgeFree (displayText (formatLine 1 (Js.lit "Languages : English")))
     = false.
Proof. split; reflexivity. Qed.

(** C9, amended: the block of a line depends only on the trimmed line and
    the index, so whitespace added around a line never changes its block;
    every text of a block has no whitespace at either end, except the key
    of a skill entry, which is the text before the first colon untrimmed:
    the key followed by its colon has none, and the value has none. *)
Theorem C9_padding_and_edges (index : nat) (pre line post : list N) :
  forallb Js.isWhiteSpace pre = true ->
  forallb Js.isWhiteSpace post = true ->
  formatLine index (pre ++ line ++ post) = formatLine index line
  /\ (forall other, Js.trim other = Js.trim line ->
        formatLine index other = formatLine index line)
  /\ match formatLine index line with
     | SkillEntry key value =>
         edgeFree (skillLabel key) = true /\ edgeFree value = true
     | b => forallb edgeFree (displayText b) = true
     end.
Proof.
  intros Hpre Hpost. split; [|split].
  - unfold formatLine. now rewrite (trim_padding pre line post Hpre Hpost).
  - intros other E. unfold formatLine. now rewrite E.
  - unfold formatLine. cbv zeta.
    pose proof (trim_edgeFree line) as Ht.
    destruct (isBlank _); [reflexivity|].
    destruct (isName _ _); [simpl; now rewrite Ht|].
    destruct (isContact _ _); [simpl; now rewrite Ht|].
    destruct (isSection _); [simpl; now rewrite Ht|].
    destruct (isJob _); [simpl; now rewrite Ht|].
    destruct (isBullet _); [simpl; now rewrite trim_edgeFree|].
    destruct (isSkill _) eqn:Hskill; [|simpl; now rewrite Ht].
    split; [|apply trim_edgeFree].
    apply skillLabel_edgeFree; [exact Ht|].
    unfold isSkill in Hskill. apply andb_true_iff in Hskill as [Hc _].
    now apply includes_char.
Qed.

(** C9 on [SKILLS] between two spaces and a tab and carriage return. *)
Lemma C9_padding_and_edges_witness :
  formatLine 3 (Js.lit "  " ++ Js.lit "SKILLS" ++ [9; 13])
  = formatLine 3 (Js.lit "SKILLS").
Proof.
  refine (proj1 (C9_padding_and_edges 3 (Js.lit "  ") (Js.lit "SKILLS")
                   [9; 13] _ _)); reflexivity.
Defined.

(** C10: on [undefined] and on [null] the guard at the head of
    [formatContent] returns the empty string, which renders no block, and
    the footer shows 0 characters. *)
Theorem C10_absent_content :
  formatContent Js.undefined = EmptyText
  /\ formatContent Js.null = EmptyText
  /\ blocksOf (formatContent Js.undefined) = []
  /\ blocksOf (formatContent Js.null) = []
  /\ Js.length_or_0 Js.undefined = 0%nat
  /\ Js.length_or_0 Js.null = 0%nat
  /\ (forall h,
        characters <$> render {| isOpen := true; content := Js.undefined |} h
        = Some 0%nat)
  /\ (forall h,
        characters <$> render {| isOpen := true; content := Js.null |} h
        = Some 0%nat).
Proof. repeat split. Qed.

(** ** The controller *)

Section Controller.

(** No callback of the page assigns the document: the raw text is the
    same after every sequence of actions. *)
Lemma deliver_rawText (ex : Export) (c : Call) :
  rawText (deliver ex c) = rawText ex.
Proof. destruct c; reflexivity. Qed.

Lemma deliver_resumePreview (ex : Export) (c : Call) :
  resumePreview (deliver ex c) = resumePreview ex.
Proof. destruct c; reflexivity. Qed.

Lemma foldl_deliver_rawText (calls : list Call) (ex : Export) :
  rawText (foldl deliver ex calls) = rawText ex.
Proof.
  revert ex. induction calls as [|c calls IH]; intros ex; [reflexivity|].
  simpl. now rewrite IH, deliver_rawText.
Qed.

Lemma foldl_deliver_resumePreview (calls : list Call) (ex : Export) :
  resumePreview (foldl deliver ex calls) = resumePreview ex.
Proof.
  revert ex. induction calls as [|c calls IH]; intros ex; [reflexivity|].
  simpl. now rewrite IH, deliver_resumePreview.
Qed.

Lemma step_rawText (ex : Export) (a : Action) :
  rawText (fst (step ex a)) = rawText ex.
Proof.
  destruct a as [| |e]; try reflexivity. unfold step.
  destruct (handle (resumeProps ex) (resumePreview ex) e) as [h calls].
  simpl. now rewrite foldl_deliver_rawText.
Qed.

Lemma step_resumePreview (ex : Export) (e : Event) :
  resumePreview (fst (step ex (InPreview e)))
  = fst (handle (resumeProps ex) (resumePreview ex) e).
Proof.
  unfold step.
  destruct (handle (resumeProps ex) (resumePreview ex) e) as [h calls].
  simpl. now rewrite foldl_deliver_resumePreview.
Qed.

Lemma run_rawText (actions : list Action) (ex : Export) :
  rawText (fst (run ex actions)) = rawText ex.
Proof.
  revert ex. induction actions as [|a actions IH]; intros ex; [reflexivity|].
  simpl. pose proof (step_rawText ex a) as Hs.
  destruct (step ex a) as [ex1 calls1]. specialize (IH ex1).
  destruct (run ex1 actions) as [ex2 calls2]. simpl in *. congruence.
Qed.

(** A click on Edit sets the flag and leaves the draft cell as it is. *)
Lemma ClickEdit_keeps_draft (ex : Export) :
  draftText (fst (step ex (InPreview ClickEdit))) = draftText ex.
Proof.
  unfold draftText. rewrite step_resumePreview. unfold handle.
  destruct (isOpen _); [|reflexivity]. simpl.
  destruct (isEditing _); reflexivity.
Qed.

Lemma step_synced (ex : Export) (a : Action) :
  notSave a = true -> synced ex -> synced (fst (step ex a)).
Proof.
  unfold synced, draftText. intros Ha Hex.
  rewrite step_rawText. destruct a as [| |e]; try exact Hex.
  rewrite step_resumePreview. unfold handle.
  destruct (isOpen (resumeProps ex)); [|exact Hex]. cbn [negb].
  destruct e; try discriminate Ha;
    destruct (isEditing (resumePreview ex)) eqn:E; simpl;
    try rewrite E; auto; discriminate.
Qed.

(** As long as Save is not clicked, each edit session starts from the raw
    text: the draft cell is seeded at mount and reset by Cancel. *)
Lemma run_synced (actions : list Action) (ex : Export) :
  forallb notSave actions = true -> synced ex ->
  synced (fst (run ex actions)).
Proof.
  revert ex. induction actions as [|a actions IH]; intros ex Ha Hex;
    [exact Hex|].
  simpl in Ha. apply andb_true_iff in Ha as [Ha Hrest].
  simpl. pose proof (step_synced ex a Ha Hex) as Hs.
  destruct (step ex a) as [ex1 calls1]. specialize (IH ex1 Hrest Hs).
  destruct (run ex1 actions) as [ex2 calls2]. exact IH.
Qed.

Lemma Viewing_not_editing (ex : Export) :
  pageMode ex = Viewing -> isEditing (resumePreview ex) = false.
Proof.
  unfold pageMode, mode. destruct (isOpen _); [|discriminate]. cbn [negb].
  destruct (isEditing _); [discriminate | reflexivity].
Qed.

(** From Viewing, a click on Edit enters Editing. *)
Lemma ClickEdit_from_Viewing (ex : Export) :
  pageMode ex = Viewing ->
  pageMode (fst (step ex (InPreview ClickEdit))) = Editing.
Proof.
  destruct ex as [resume modal note open [editing draft]].
  unfold pageMode, mode, step, handle. simpl.
  destruct open; [|discriminate]. destruct editing; [discriminate|].
  reflexivity.
Qed.

End Controller.

(** ** Claims about the controller *)

(** Without a Save the draft never leaves the raw text behind: it is
    seeded from the raw text when the component mounts and reset to it by
    Cancel, and a click on Edit only sets the flag and keeps the draft as
    it is; so after every sequence of actions without a Save, an edit
    session begun from Viewing starts with the draft equal to the raw
    text.  Only a Save can break this. *)
Lemma edit_starts_from_rawText_without_save
  (resume : Js.value) (actions : list Action) :
  forallb notSave actions = true ->
  let before := fst (run (openPage resume) actions) in
  let after := fst (step before (InPreview ClickEdit)) in
  editedContent (mount resume) = resume
  /\ (forall p h, editedContent (handleCancel p h) = content p)
  /\ draftText after = draftText before
  /\ (pageMode before = Viewing ->
      pageMode after = Editing
      /\ rawText after = resume
      /\ draftText after = rawText after).
Proof.
  intros Hactions. cbv zeta.
  split; [reflexivity|]. split; [reflexivity|].
  split; [apply ClickEdit_keeps_draft|].
  intros Hmode.
  assert (Hsync : synced (fst (run (openPage resume) actions))).
  { apply run_synced; [exact Hactions | intros _; reflexivity]. }
  rewrite ClickEdit_keeps_draft, step_rawText, run_rawText.
  split; [now apply ClickEdit_from_Viewing|]. split; [reflexivity|].
  rewrite <- (run_rawText actions (openPage resume)). apply Hsync.
  now apply Viewing_not_editing.
Qed.

(** C2 at a failing input: the page holds the resume [A]; the user opens
    the preview, edits the draft to [X], saves, dismisses the notification
    and clicks Edit again.  The save handler of the page has dropped the
    text, so the raw text is still [A], and the new edit session starts
    from the saved draft [X] instead of the raw text. *)
Theorem C2_second_edit_starts_from_saved_draft :
  let ex :=
    fst (run (openPage (Js.Str (Js.lit "A")))
           [ClickPreview; InPreview ClickEdit;
            InPreview (Change (Js.lit "X")); InPreview ClickSave;
            CloseNotification; InPreview ClickEdit]) in
  pageMode ex = Editing
  /\ rawText ex = Js.Str (Js.lit "A")
  /\ draftText ex = Js.Str (Js.lit "X")
  /\ body <$> screen ex = Some (Textarea (Js.Str (Js.lit "X")))
  /\ draftText ex <> rawText ex.
Proof. repeat split. discriminate. Qed.

(** C3 at a failing input: the page holds the resume [A]; the user opens
    the preview, edits the draft to [X] and saves.  The save callback runs
    once, with [X], and the preview is back in Viewing, but the raw text is
    still [A] and [A] is what the view classifies, while the page reports
    that the resume was updated. *)
Theorem C3_save_leaves_rawText :
  let result :=
    run (openPage (Js.Str (Js.lit "A")))
      [ClickPreview; InPreview ClickEdit;
       InPreview (Change (Js.lit "X")); InPreview ClickSave] in
  snd result = [onSave (Js.Str (Js.lit "X"))]
  /\ pageMode (fst result) = Viewing
  /\ rawText (fst result) = Js.Str (Js.lit "A")
  /\ body <$> screen (fst result)
     = Some (Preview (formatContent (Js.Str (Js.lit "A"))))
  /\ showModal (fst result) = true
  /\ message (modalContent (fst result))
     = Js.lit "Your resume has been updated successfully.".
Proof. repeat split. Qed.

(** C4, as stated, fails: while the draft [XYZ] of the resume [A] is being
    edited, the textarea shows [XYZ], 3 code units, and the footer shows 1. *)
Lemma C4_count_ignores_draft :
  let ex :=
    fst (run (openPage (Js.Str (Js.lit "A")))
           [ClickPreview; InPreview ClickEdit;
            InPreview (Change (Js.lit "XYZ"))]) in
  pageMode ex = Editing
  /\ body <$> screen ex = Some (Textarea (Js.Str (Js.lit "XYZ")))
  /\ characters <$> screen ex = Some 1%nat
  /\ Js.length_or_0 (draftText ex) = 3%nat.
Proof. repeat split. Qed.

(** C4, amended: whenever the preview is on screen, the displayed count is
    the length of the raw text, and 0 when there is none; in Viewing that is
    the length of the text shown, and in Editing the textarea shows the
    draft while the count stays that of the raw text. *)
Theorem C4_count_is_rawText_length (p : Props) (h : Hooks) (v : View) :
  render p h = Some v ->
  characters v = Js.length_or_0 (content p)
  /\ (mode p h = Viewing -> characters v = Js.length_or_0 (shownText v p))
  /\ (mode p h = Editing -> shownText v p = editedContent h).
Proof.
  unfold render, mode. destruct (isOpen p); [|discriminate]. cbn [negb].
  intros [= <-]. unfold shownText. simpl.
  destruct (isEditing h); repeat split; try reflexivity; discriminate.
Qed.

(** C4 on the resume [A] while the draft [XYZ] is edited. *)
Lemma C4_count_is_rawText_length_witness :
  characters
    {| editButton := false; body := Textarea (Js.Str (Js.lit "XYZ"));
       characters := 1 |}
  = Js.length_or_0 (Js.Str (Js.lit "A")).
Proof.
  refine (proj1 (C4_count_is_rawText_length
                   {| isOpen := true; content := Js.Str (Js.lit "A") |}
                   {| isEditing := true;
                      editedContent := Js.Str (Js.lit "XYZ") |}
                   _ _)).
  reflexivity.
Defined.

(** C5, as stated, fails: the user edits the draft of the resume [A] to
    [X], closes the preview and opens it again.  The preview is in Editing,
    not in Viewing, and the textarea shows the draft [X]. *)
Lemma C5_reopen_resumes_editing :
  let ex :=
    fst (run (openPage (Js.Str (Js.lit "A")))
           [ClickPreview; InPreview ClickEdit;
            InPreview (Change (Js.lit "X")); InPreview ClickClose;
            ClickPreview]) in
  pageMode ex = Editing
  /\ pageMode ex <> Viewing
  /\ body <$> screen ex = Some (Textarea (Js.Str (Js.lit "X"))).
Proof. repeat split. discriminate. Qed.

(** C5, amended: closing while in Editing calls the close callback once and
    hides the preview; the raw text is unchanged, and the edit flag and the
    draft are kept, so the next open resumes Editing with that draft. *)
Theorem C5_close_keeps_edit_session (ex : Export) :
  pageMode ex = Editing ->
  let closed := step ex (InPreview ClickClose) in
  let reopened := fst (step (fst closed) ClickPreview) in
  snd closed = [onClose]
  /\ pageMode (fst closed) = Closed
  /\ screen (fst closed) = None
  /\ rawText (fst closed) = rawText ex
  /\ draftText (fst closed) = draftText ex
  /\ pageMode reopened = Editing
  /\ rawText reopened = rawText ex
  /\ body <$> screen reopened = Some (Textarea (draftText ex)).
Proof.
  unfold pageMode, mode, screen, render, step, handle, draftText, rawText.
  destruct ex as [resume modal note open [editing draft]]. simpl.
  destruct open; [|discriminate]. destruct editing; [|discriminate].
  intros _. simpl. repeat split.
Qed.

(** C5 on the resume [A] with the draft [X] under edit. *)
Lemma C5_close_keeps_edit_session_witness :
  pageMode
    (fst (step
            (fst (step
                    {| generatedResume := Js.Str (Js.lit "A");
                       showModal := false;
                       modalContent :=
                         {| type := []; title := []; message := [] |};
                       showResumePreview := true;
                       resumePreview :=
                         {| isEditing := true;
                            editedContent := Js.Str (Js.lit "X") |} |}
                    (InPreview ClickClose)))
            ClickPreview))
  = Editing.
Proof.
  refine (proj1 (proj2 (proj2 (proj2 (proj2 (proj2
            (C5_close_keeps_edit_session _ _))))))).
  reflexivity.
Defined.

(** * Further properties of the classifier *)

Lemma trim_nil_iff (s : list N) :
  Js.trim s = [] <-> forallb Js.isWhiteSpace s = true.
Proof.
  unfold Js.trim. split.
  - intros H. apply trimStart_nil_iff.
    destruct (Js.trimStart s) as [|c r] eqn:E; [reflexivity|].
    destruct (trimEnd_keeps_head r c (trimStart_head _ _ _ E)) as (r' & Hr).
    rewrite Hr in H. discriminate.
  - intros H. apply trimStart_nil_iff in H. now rewrite H.
Qed.

Lemma isBlank_true (t : list N) : isBlank t = true <-> t = [].
Proof. destruct t; split; intros; try discriminate; reflexivity. Qed.

(** X1: a line is rendered as a spacer exactly when it holds nothing but
    whitespace, at every index. *)
Theorem X1_blank_iff_whitespace (index : nat) (line : list N) :
  formatLine index line = Blank <-> forallb Js.isWhiteSpace line = true.
Proof.
  rewrite <- trim_nil_iff, <- isBlank_true. unfold formatLine. cbv zeta.
  destruct (isBlank (Js.trim line)); [tauto|].
  split; [|discriminate].
  repeat match goal with
         | |- context [if ?b then _ else _] => destruct b; try discriminate
         end.
Qed.

(** X2: the name element is produced for the first line only, and there
    exactly when the trimmed line is made of capitals and whitespace and is
    longer than 3 code units. *)
Theorem X2_person_name_iff (index : nat) (line : list N) :
  role (formatLine index line) = person_name <->
  index = 0%nat /\ matchesName (Js.trim line) = true
  /\ (3 < length (Js.trim line))%nat.
Proof.
  rewrite role_formatLine. cbv zeta. unfold isName.
  destruct (isBlank (Js.trim line)) eqn:Hb.
  - apply isBlank_true in Hb. rewrite Hb. simpl.
    split; [discriminate | intros (_ & H & _); discriminate].
  - destruct (Nat.eqb_spec index 0) as [->|Hi]; cbn [andb].
    + destruct (matchesName (Js.trim line)); cbn [andb].
      * destruct (Nat.ltb_spec 3 (length (Js.trim line))).
        -- tauto.
        -- split; [|lia].
           repeat match goal with
                  | |- context [if ?b then _ else _] =>
                      destruct b; try discriminate
                  end.
      * split; [|intros (_ & H & _); discriminate].
        repeat match goal with
               | |- context [if ?b then _ else _] =>
                   destruct b; try discriminate
               end.
    + split; [|tauto].
      repeat match goal with
             | |- context [if ?b then _ else _] =>
                 destruct b; try discriminate
             end.
Qed.

(** X3: a line that holds a vertical bar is contact info or a job header
    and nothing else: contact info among the first 5 lines or when it holds
    an at sign or [linkedin.com], a job header otherwise.  So a bullet or a
    skill line with a bar in it is never shown as a bullet or a skill. *)
Theorem X3_bar_line (index : nat) (line : list N) :
  Js.includes line [BAR] = true ->
  role (formatLine index line) =
    if (index <? 5)%nat || Js.includes line [AT]
       || Js.includes (Js.trim line) (Js.lit "linkedin.com")
    then contact_info else job_header.
Proof.
  intros Hbar.
  rewrite <- (includes_char_trim line BAR eq_refl) in Hbar.
  rewrite <- (includes_char_trim line AT eq_refl).
  pose proof (proj1 (includes_char _ _) Hbar) as Hin.
  rewrite role_formatLine. cbv zeta. set (t := Js.trim line) in *.
  assert (Hblank : isBlank t = false)
    by (destruct t; [destruct Hin | reflexivity]).
  assert (Hname : isName index t = false).
  { unfold isName. destruct (matchesName t) eqn:E.
    - pose proof (matchesName_class t E BAR Hin) as C. discriminate C.
    - now rewrite andb_false_r. }
  assert (Hsection : isSection t = false).
  { unfold isSection. destruct (matchesHeader t) eqn:E; [|reflexivity].
    pose proof (matchesHeader_class t E BAR Hin) as C. discriminate C. }
  assert (Hjob : isJob t = true).
  { unfold isJob. rewrite Hbar. apply Nat.leb_le.
    now apply split_length_In. }
  rewrite Hblank, Hname, Hsection, Hjob. unfold isContact. rewrite Hbar.
  cbn [andb].
  destruct (Js.includes t [AT]), (Js.includes t (Js.lit "linkedin.com")),
    (index <? 5)%nat; reflexivity.
Qed.

Lemma X3_bar_line_witness :
  role (formatLine 9 (BULLET :: Js.lit " Built A | B")) = job_header.
Proof.
  exact (X3_bar_line 9 (BULLET :: Js.lit " Built A | B") eq_refl).
Defined.

Lemma startsWith_length (p s : list N) :
  Js.startsWith s p = true -> (length p <= length s)%nat.
Proof.
  revert s. induction p as [|a p IH]; intros s H; simpl; [lia|].
  destruct s as [|c s]; simpl in H; [discriminate|].
  apply andb_true_iff in H as [_ H]. apply IH in H. simpl. lia.
Qed.

(** A substring is no longer than the string it is found in. *)
Lemma includes_length (s sub : list N) :
  Js.includes s sub = true -> (length sub <= length s)%nat.
Proof.
  induction s as [|c s IH]; intros H; simpl in H.
  - rewrite orb_false_r in H. exact (startsWith_length sub [] H).
  - apply orb_true_iff in H as [H|H].
    + exact (startsWith_length sub (c :: s) H).
    + apply IH in H. simpl. lia.
Qed.

(** X4: the length test of the section-header rule never decides: a line
    of the header pattern that holds a vocabulary title has at least 6 code
    units, the length of the shortest title.  So every section header is at
    least 6 code units long. *)
Theorem X4_section_header_length (index : nat) (line : list N) :
  isSection (Js.trim line)
  = matchesHeader (Js.trim line)
    && existsb (fun section => Js.includes (Js.trim line) section) sections
  /\ (role (formatLine index line) = section_header ->
      (6 <= length (Js.trim line))%nat).
Proof.
  set (t := Js.trim line).
  assert (Hlen : existsb (fun section => Js.includes t section) sections = true
                 -> (6 <= length t)%nat).
  { intros H. apply existsb_exists in H as (section & Hin & Hs).
    apply includes_length in Hs.
    assert (Hall : forallb (fun x => (6 <=? length x)%nat) sections = true)
      by reflexivity.
    rewrite forallb_forall in Hall. apply Hall in Hin.
    apply Nat.leb_le in Hin. lia. }
  split.
  - unfold isSection. destruct (matchesHeader t); [|reflexivity].
    cbn [andb].
    destruct (existsb _ sections) eqn:E; [|apply andb_false_r].
    specialize (Hlen eq_refl).
    assert (H3 : (3 <? length t)%nat = true) by (apply Nat.ltb_lt; lia).
    now rewrite H3.
  - rewrite role_formatLine. cbv zeta. fold t.
    destruct (isBlank t); [discriminate|].
    destruct (isName index t); [discriminate|].
    destruct (isContact index t); [discriminate|].
    destruct (isSection t) eqn:E.
    + intros _. unfold isSection in E.
      apply andb_true_iff in E as [_ E]. auto.
    + repeat match goal with
             | |- context [if ?b then _ else _] => destruct b; try discriminate
             end.
Qed.

Lemma X4_section_header_length_witness :
  (6 <= length (Js.trim (Js.lit " SKILLS ")))%nat.
Proof.
  exact (proj2 (X4_section_header_length 2 (Js.lit " SKILLS ")) eq_refl).
Defined.

Lemma first_split_no_sep (sep : N) (s : list N) :
  ~ In sep (Js.first (Js.split sep s)).
Proof.
  apply (split_parts sep s).
  pose proof (split_not_nil sep s) as H.
  destruct (Js.split sep s); [contradiction | now left].
Qed.

(** X5: a skill entry is cut at the first colon only: the key holds no
    colon, the trimmed line is the key, a colon and a rest, and the value is
    that rest trimmed, further colons included. *)
Theorem X5_skill_entry_first_colon
  (index : nat) (line key value : list N) :
  formatLine index line = SkillEntry key value ->
  ~ In COLON key
  /\ exists rest,
       Js.trim line = key ++ COLON :: rest /\ value = Js.trim rest.
Proof.
  unfold formatLine. cbv zeta.
  destruct (isBlank _); [discriminate|].
  destruct (isName _ _); [discriminate|].
  destruct (isContact _ _); [discriminate|].
  destruct (isSection _); [discriminate|].
  destruct (isJob _); [discriminate|].
  destruct (isBullet _); [discriminate|].
  destruct (isSkill _) eqn:Hskill; [|discriminate].
  intros [= <- <-]. split; [apply first_split_no_sep|].
  unfold isSkill in Hskill. apply andb_true_iff in Hskill as [Hc _].
  apply includes_char in Hc.
  exists (Js.join COLON (Js.slice 1 (Js.split COLON (Js.trim line)))).
  split; [now apply split_first_rest | reflexivity].
Qed.

Lemma X5_skill_entry_first_colon_witness :
  exists rest,
    Js.trim (Js.lit "Hours: 09:00 to 17:30")
    = Js.lit "Hours" ++ COLON :: rest
    /\ Js.lit "09:00 to 17:30" = Js.trim rest.
Proof.
  exact (proj2 (X5_skill_entry_first_colon 8 (Js.lit "Hours: 09:00 to 17:30")
                  (Js.lit "Hours") (Js.lit "09:00 to 17:30") eq_refl)).
Defined.

(** Lines that end in a carriage return are split like lines that do not,
    as far as a function that ignores a final carriage return can tell. *)
Lemma imap_split_crlf {B : Type} (text : list N) :
  forall f : nat -> list N -> B,
    (forall i part, f i (part ++ [CR]) = f i part) ->
    imap f (Js.split NEWLINE (crlf text)) = imap f (Js.split NEWLINE text).
Proof.
  induction text as [|c text IH]; intros f Hf; [reflexivity|].
  simpl. destruct (N.eqb_spec c NEWLINE) as [->|Hc].
  - simpl. f_equal; [exact (Hf 0%nat []) | apply IH].
    intros i part. apply Hf.
  - simpl. apply N.eqb_neq in Hc. rewrite Hc.
    specialize (IH (fun i part =>
                      f i (match i with 0%nat => c :: part | S _ => part end))).
    pose proof (split_not_nil NEWLINE (crlf text)) as N1.
    pose proof (split_not_nil NEWLINE text) as N2.
    destruct (Js.split NEWLINE (crlf text)) as [|p1 ps1]; [contradiction|].
    destruct (Js.split NEWLINE text) as [|p2 ps2]; [contradiction|].
    simpl in IH |- *. apply IH.
    intros [|i] part; [apply (Hf 0%nat (c :: part)) | apply Hf].
Qed.

Lemma formatLine_CR (index : nat) (line : list N) :
  formatLine index (line ++ [CR]) = formatLine index line.
Proof.
  unfold formatLine.
  pose proof (trim_padding [] line [CR] eq_refl eq_refl) as H.
  cbn [app] in H. now rewrite H.
Qed.

(** X6: a text with CRLF line ends renders as the same text with LF line
    ends: the carriage return before each newline is trimmed away with the
    rest of the whitespace. *)
Theorem X6_crlf_invariant (text : list N) :
  formatContent (Js.Str (crlf text)) = formatContent (Js.Str text).
Proof.
  destruct text as [|c text]; [reflexivity|].
  assert (Hne : Js.falsy (Js.Str (crlf (c :: text))) = false).
  { simpl. now destruct (c =? NEWLINE). }
  unfold formatContent. rewrite Hne. cbn [Js.falsy]. f_equal.
  apply imap_split_crlf. intros i part. apply formatLine_CR.
Qed.

Lemma split_app (sep : N) (a b : list N) :
  Js.split sep (a ++ sep :: b) = Js.split sep a ++ Js.split sep b.
Proof.
  induction a as [|c a IH]; simpl.
  - now rewrite N.eqb_refl.
  - destruct (c =? sep); [now rewrite IH|].
    rewrite IH. pose proof (split_not_nil sep a) as Hn.
    destruct (Js.split sep a); [contradiction | reflexivity].
Qed.

(** X7: text added after a newline does not disturb what precedes it: the
    blocks of a non-empty text followed by a newline and more text are the
    blocks of the text, then the blocks of the added lines at the indices
    that follow.  In particular a final newline adds one spacer. *)
Theorem X7_blocks_of_appended_text (a b : list N) :
  a <> [] ->
  blocksOf (formatContent (Js.Str (a ++ NEWLINE :: b)))
  = blocksOf (formatContent (Js.Str a))
    ++ imap (fun i => formatLine (S (newlines a) + i)) (Js.split NEWLINE b)
  /\ blocksOf (formatContent (Js.Str (a ++ [NEWLINE])))
     = blocksOf (formatContent (Js.Str a)) ++ [Blank].
Proof.
  intros Ha.
  assert (Hblocks : forall t, t <> [] ->
            blocksOf (formatContent (Js.Str t))
            = imap formatLine (Js.split NEWLINE t)).
  { intros [|c t] Ht; [contradiction | reflexivity]. }
  assert (Hne : forall t, a ++ NEWLINE :: t <> []) by (intros t; now destruct a).
  assert (Hmain : forall t,
            blocksOf (formatContent (Js.Str (a ++ NEWLINE :: t)))
            = blocksOf (formatContent (Js.Str a))
              ++ imap (fun i => formatLine (S (newlines a) + i))
                   (Js.split NEWLINE t)).
  { intros t. rewrite (Hblocks _ (Hne t)), (Hblocks a Ha), split_app, imap_app.
    unfold newlines. now rewrite <- split_length. }
  split; [apply Hmain|]. rewrite (Hmain []). reflexivity.
Qed.

Lemma X7_blocks_of_appended_text_witness :
  blocksOf (formatContent (Js.Str (Js.lit "JANE ROE" ++ [NEWLINE])))
  = blocksOf (formatContent (Js.Str (Js.lit "JANE ROE"))) ++ [Blank].
Proof.
  refine (proj2 (X7_blocks_of_appended_text (Js.lit "JANE ROE") [] _)).
  discriminate.
Defined.

(** * Further properties of the controller *)

Lemma last_cons_default {A : Type} (x d : A) (l : list A) :
  default d (last (x :: l)) = default x (last l).
Proof.
  destruct l as [|y l]; [reflexivity|].
  change (last (x :: y :: l)) with (last (y :: l)).
  destruct (last_is_Some (y :: l)) as [_ H].
  destruct H as [z Hz]; [discriminate|]. now rewrite Hz.
Qed.

(** Typing replaces the draft by each text in turn and calls nothing. *)
Lemma run_typing (resume : Js.value) (modal : bool) (note : Notification)
  (texts : list (list N)) (rest : list Action) :
  forall draft,
    run {| generatedResume := resume; showModal := modal;
           modalContent := note; showResumePreview := true;
           resumePreview := {| isEditing := true; editedContent := draft |} |}
        (typing texts ++ rest)
    = run {| generatedResume := resume; showModal := modal;
             modalContent := note; showResumePreview := true;
             resumePreview :=
               {| isEditing := true;
                  editedContent := default draft (last (Js.Str <$> texts)) |} |}
          rest.
Proof.
  induction texts as [|value texts IH]; intros draft; [reflexivity|].
  cbn [typing map app fmap list_fmap].
  change (map (fun value => InPreview (Change value)) texts) with (typing texts).
  rewrite last_cons_default, <- IH. cbn [run step handle].
  unfold resumeProps. cbn.
  destruct (run _ (typing texts ++ rest)) as [ex2 calls2]. reflexivity.
Qed.

Lemma step_ClickEdit (resume : Js.value) (modal : bool) (note : Notification)
  (draft : Js.value) :
  step {| generatedResume := resume; showModal := modal;
          modalContent := note; showResumePreview := true;
          resumePreview := {| isEditing := false; editedContent := draft |} |}
       (InPreview ClickEdit)
  = ({| generatedResume := resume; showModal := modal;
        modalContent := note; showResumePreview := true;
        resumePreview := {| isEditing := true; editedContent := draft |} |},
     []).
Proof. reflexivity. Qed.

(** X8: an edit session that ends in Cancel is undone as a whole.  From
    Viewing with the draft equal to the raw text, clicking Edit, typing any
    texts and clicking Cancel gives back the very same page state and calls
    no callback. *)
Theorem X8_cancelled_session_is_identity
  (ex : Export) (texts : list (list N)) :
  pageMode ex = Viewing ->
  draftText ex = rawText ex ->
  run ex (InPreview ClickEdit :: typing texts ++ [InPreview ClickCancel])
  = (ex, []).
Proof.
  destruct ex as [resume modal note open [editing draft]].
  intros Hmode Hdraft. cbv in Hmode, Hdraft.
  destruct open; [|discriminate]. destruct editing; [discriminate|].
  subst draft. cbn [run]. rewrite step_ClickEdit.
  rewrite (run_typing resume modal note texts [InPreview ClickCancel]).
  reflexivity.
Qed.

Lemma X8_cancelled_session_is_identity_witness :
  run (fst (step (openPage (Js.Str (Js.lit "A"))) ClickPreview))
    (InPreview ClickEdit
       :: typing [Js.lit "AB"; Js.lit "ABC"] ++ [InPreview ClickCancel])
  = (fst (step (openPage (Js.Str (Js.lit "A"))) ClickPreview), []).
Proof.
  exact (X8_cancelled_session_is_identity
           (fst (step (openPage (Js.Str (Js.lit "A"))) ClickPreview))
           [Js.lit "AB"; Js.lit "ABC"] eq_refl eq_refl).
Defined.

(** X10: Save hands over the text typed last, once.  From Viewing, clicking
    Edit, typing any texts and clicking Save calls the save callback exactly
    once, with the last text typed, or with the draft as it stood when
    nothing was typed; the preview is back in Viewing and keeps that text as
    its draft. *)
Theorem X10_save_passes_last_text (ex : Export) (texts : list (list N)) :
  pageMode ex = Viewing ->
  let saved := default (draftText ex) (last (Js.Str <$> texts)) in
  let result :=
    run ex (InPreview ClickEdit :: typing texts ++ [InPreview ClickSave]) in
  snd result = [onSave saved]
  /\ pageMode (fst result) = Viewing
  /\ draftText (fst result) = saved.
Proof.
  destruct ex as [resume modal note open [editing draft]].
  intros Hmode. cbv in Hmode.
  destruct open; [|discriminate]. destruct editing; [discriminate|].
  cbv zeta. cbn [run]. rewrite step_ClickEdit.
  rewrite (run_typing resume modal note texts [InPreview ClickSave]).
  repeat split.
Qed.

Lemma X10_save_passes_last_text_witness :
  snd (run (fst (step (openPage (Js.Str (Js.lit "A"))) ClickPreview))
         (InPreview ClickEdit
            :: typing [Js.lit "AB"; Js.lit "ABC"] ++ [InPreview ClickSave]))
  = [onSave (Js.Str (Js.lit "ABC"))].
Proof.
  exact (proj1 (X10_save_passes_last_text
                  (fst (step (openPage (Js.Str (Js.lit "A"))) ClickPreview))
                  [Js.lit "AB"; Js.lit "ABC"] eq_refl)).
Defined.

Lemma step_calls (ex : Export) (a : Action) :
  (length (filter isOnSave (snd (step ex a)))
   <= if notSave a then 0 else 1)%nat.
Proof.
  destruct ex as [resume modal note open [editing draft]].
  destruct a as [| |[]]; destruct open, editing; cbv; lia.
Qed.

(** X9: the save callback runs only on a click on Save: over every sequence
    of actions it is called at most once per Save click, and a sequence
    without a Save click calls nothing but the close callback. *)
Theorem X9_save_calls_bounded_by_clicks (ex : Export) (actions : list Action) :
  (length (filter isOnSave (snd (run ex actions)))
   <= length (filter (fun a => negb (notSave a)) actions))%nat
  /\ (forallb notSave actions = true ->
      forall c, In c (snd (run ex actions)) -> c = onClose).
Proof.
  assert (Hcount : forall acts e,
            (length (filter isOnSave (snd (run e acts)))
             <= length (filter (fun a => negb (notSave a)) acts))%nat).
  { induction acts as [|a acts IH]; intros e; [reflexivity|].
    cbn [run]. pose proof (step_calls e a) as Hs.
    destruct (step e a) as [e1 calls1]. specialize (IH e1).
    destruct (run e1 acts) as [e2 calls2]. cbn [snd] in *.
    rewrite filter_app, length_app, filter_cons.
    destruct (notSave a); cbn [negb]; case_decide; simpl in *; try tauto; lia. }
  split; [apply Hcount|].
  intros Hall c Hc. specialize (Hcount actions ex).
  assert (Hzero : filter (fun a => negb (notSave a)) actions = []).
  { clear -Hall. induction actions as [|a actions IH]; [reflexivity|].
    simpl in Hall. apply andb_true_iff in Hall as [Ha Hrest].
    rewrite filter_cons, Ha. cbn [negb].
    case_decide as Hd; [exfalso; exact Hd | auto]. }
  rewrite Hzero in Hcount. simpl in Hcount.
  destruct c as [arg|]; [|reflexivity]. exfalso.
  assert (Hin : In (onSave arg) (filter isOnSave (snd (run ex actions)))).
  { apply list_elem_of_In, list_elem_of_filter. split; [exact I|].
    now apply list_elem_of_In. }
  destruct (filter isOnSave (snd (run ex actions))); [destruct Hin|].
  simpl in Hcount. lia.
Qed.

Lemma X9_save_calls_bounded_by_clicks_witness :
  List.Forall (fun c => c = onClose)
    (snd (run (openPage (Js.Str (Js.lit "A")))
            [ClickPreview; InPreview ClickEdit;
             InPreview (Change (Js.lit "X")); InPreview ClickClose])).
Proof.
  apply List.Forall_forall.
  exact (proj2 (X9_save_calls_bounded_by_clicks
                  (openPage (Js.Str (Js.lit "A")))
                  [ClickPreview; InPreview ClickEdit;
                   InPreview (Change (Js.lit "X")); InPreview ClickClose])
           eq_refl).
Defined.

(** * The workflow context *)

Section WorkflowProperties.

Import WorkflowContext.

Context {V : Type} (null : V).

Lemma apply_step_bounds (w : Workflow V) (op : Op V) :
  (0 <= currentStep w <= 4)%Z -> (0 <= currentStep (apply null w op) <= 4)%Z.
Proof. destruct op; simpl; lia. Qed.

Lemma applyAll_step_bounds (ops : list (Op V)) (w : Workflow V) :
  (0 <= currentStep w <= 4)%Z ->
  (0 <= currentStep (applyAll null w ops) <= 4)%Z.
Proof.
  revert w. induction ops as [|op ops IH]; intros w H; [exact H|].
  apply IH, apply_step_bounds, H.
Qed.

Lemma initial_keys (key : string) :
  In key initialKeys -> is_Some (workflowData (initial null) !! key).
Proof.
  intros Hkey. simpl in Hkey. unfold initial, initialData. simpl.
  repeat destruct Hkey as [<-|Hkey]; try contradiction;
    repeat (rewrite lookup_insert_ne by discriminate);
    rewrite lookup_insert_eq; eauto.
Qed.

Lemma apply_keys (w : Workflow V) (op : Op V) :
  (forall key, In key initialKeys -> is_Some (workflowData w !! key)) ->
  forall key, In key initialKeys ->
    is_Some (workflowData (apply null w op) !! key).
Proof.
  intros H key Hkey. destruct op as [k v| | |]; simpl; auto.
  - destruct (decide (k = key)) as [->|Hne].
    + rewrite lookup_insert_eq. eauto.
    + rewrite lookup_insert_ne by exact Hne. auto.
  - now apply initial_keys.
Qed.

End WorkflowProperties.

(** X11: whatever the pages call, in whatever order, the current step of
    the workflow stays between 0 and 4, so the header always shows a step
    between 1 and the total of 5. *)
Theorem X11_step_stays_in_range {V : Type} (null : V)
  (ops : list (WorkflowContext.Op V)) :
  let w := WorkflowContext.applyAll null (WorkflowContext.initial null) ops in
  (0 <= WorkflowContext.currentStep w <= 4)%Z
  /\ (1 <= WorkflowContext.shownStep w <= WorkflowContext.totalSteps)%Z.
Proof.
  cbv zeta.
  pose proof (applyAll_step_bounds null ops (WorkflowContext.initial null))
    as H.
  unfold WorkflowContext.shownStep, WorkflowContext.totalSteps.
  simpl in H. lia.
Qed.

(** X12: moving forward and back again returns to the same workflow state
    except at the ends, where the step saturates: at step 4 [nextStep]
    changes nothing and at step 0 [prevStep] changes nothing. *)
Theorem X12_next_prev {V : Type} (w : WorkflowContext.Workflow V) :
  (0 <= WorkflowContext.currentStep w <= 4)%Z ->
  (WorkflowContext.currentStep w < 4 ->
   WorkflowContext.prevStep (WorkflowContext.nextStep w) = w)%Z
  /\ (0 < WorkflowContext.currentStep w ->
      WorkflowContext.nextStep (WorkflowContext.prevStep w) = w)%Z
  /\ (WorkflowContext.currentStep w = 4%Z -> WorkflowContext.nextStep w = w)
  /\ (WorkflowContext.currentStep w = 0%Z -> WorkflowContext.prevStep w = w).
Proof.
  destruct w as [step data]. simpl. intros Hrange.
  unfold WorkflowContext.prevStep, WorkflowContext.nextStep. simpl.
  repeat split; intros H; f_equal; lia.
Qed.

Lemma X12_next_prev_witness :
  WorkflowContext.nextStep
    (WorkflowContext.nextStep
       (WorkflowContext.nextStep
          (WorkflowContext.nextStep
             (WorkflowContext.nextStep
                (WorkflowContext.initial Js.null)))))
  = WorkflowContext.nextStep
      (WorkflowContext.nextStep
         (WorkflowContext.nextStep
            (WorkflowContext.nextStep (WorkflowContext.initial Js.null)))).
Proof.
  refine (proj1 (proj2 (proj2
            (X12_next_prev
               (WorkflowContext.nextStep
                  (WorkflowContext.nextStep
                     (WorkflowContext.nextStep
                        (WorkflowContext.nextStep
                           (WorkflowContext.initial Js.null))))) _))) _).
  - simpl. lia.
  - reflexivity.
Defined.

(** X13: [updateWorkflowData] writes one key and nothing else: the key then
    reads as the value written, every other key reads as before, and the
    step is unchanged.  No sequence of calls loses one of the five keys of
    the initial object. *)
Theorem X13_update_writes_one_key {V : Type} (null : V)
  (key : string) (value : V) (w : WorkflowContext.Workflow V) :
  let w' := WorkflowContext.updateWorkflowData key value w in
  WorkflowContext.workflowData w' !! key = Some value
  /\ (forall other, other <> key ->
        WorkflowContext.workflowData w' !! other
        = WorkflowContext.workflowData w !! other)
  /\ WorkflowContext.currentStep w' = WorkflowContext.currentStep w
  /\ (forall ops name,
        In name WorkflowContext.initialKeys ->
        is_Some
          (WorkflowContext.workflowData
             (WorkflowContext.applyAll null (WorkflowContext.initial null) ops)
           !! name)).
Proof.
  cbv zeta. split; [apply lookup_insert_eq|].
  split; [intros other Hne; now apply lookup_insert_ne|].
  split; [reflexivity|].
  intros ops.
  assert (H : forall w0 : WorkflowContext.Workflow V,
            (forall k, In k WorkflowContext.initialKeys ->
                       is_Some (WorkflowContext.workflowData w0 !! k)) ->
            forall k, In k WorkflowContext.initialKeys ->
              is_Some (WorkflowContext.workflowData
                         (WorkflowContext.applyAll null w0 ops) !! k)).
  { induction ops as [|op ops IH]; intros w0 H0; [exact H0|].
    apply IH. now apply apply_keys. }
  apply H. apply initial_keys.
Qed.

Lemma X13_update_writes_one_key_witness :
  WorkflowContext.workflowData
    (WorkflowContext.updateWorkflowData "generatedResume"
       (Js.Str (Js.lit "A")) (WorkflowContext.initial Js.null))
  !! "selectedJob"%string
  = WorkflowContext.workflowData (WorkflowContext.initial Js.null)
    !! "selectedJob"%string.
Proof.
  refine (proj1 (proj2
            (X13_update_writes_one_key Js.null "generatedResume"
               (Js.Str (Js.lit "A")) (WorkflowContext.initial Js.null)))
            "selectedJob"%string _).
  discriminate.
Defined.

(** * The job titles of the search form *)

Section JobTitles.

Import JobSearch.

Lemma imap_update (value : list N) (l : list (list N)) :
  forall index,
    imap (fun i title => if (i =? index)%nat then value else title) l
    = <[index := value]> l.
Proof.
  induction l as [|x l IH]; intros index; [reflexivity|].
  rewrite imap_cons. destruct index as [|index]; simpl.
  - f_equal. transitivity (imap (fun _ (t : list N) => t) l).
    + apply imap_ext. reflexivity.
    + clear. induction l as [|y l IHl]; [reflexivity|].
      rewrite imap_cons. f_equal. exact IHl.
  - f_equal. rewrite <- IH. apply imap_ext. reflexivity.
Qed.

Lemma filterIndex_above (target : nat) (l : list (list N)) :
  forall from, (target < from)%nat ->
    filterIndex (fun _ i => negb (i =? target)%nat) from l = l.
Proof.
  induction l as [|x l IH]; intros from H; [reflexivity|].
  simpl. destruct (Nat.eqb_spec from target) as [E|_]; [lia|]. simpl.
  f_equal. apply IH. lia.
Qed.

Lemma filterIndex_delete (l : list (list N)) :
  forall index from,
    filterIndex (fun _ i => negb (i =? from + index)%nat) from l
    = delete index l.
Proof.
  induction l as [|x l IH]; intros index from; [reflexivity|].
  simpl. destruct index as [|index].
  - rewrite Nat.add_0_r, Nat.eqb_refl. simpl.
    apply filterIndex_above. lia.
  - destruct (Nat.eqb_spec from (from + S index)) as [E|_]; [lia|]. simpl.
    f_equal. replace (from + S index)%nat with (S from + index)%nat by lia.
    apply IH.
Qed.

Lemma filterIndex_delete0 (l : list (list N)) (index : nat) :
  filterIndex (fun _ i => negb (i =? index)%nat) 0 l = delete index l.
Proof. exact (filterIndex_delete l index 0). Qed.

Lemma delete_past_end (l : list (list N)) :
  forall index, (length l <= index)%nat -> delete index l = l.
Proof.
  induction l as [|x l IH]; intros [|index] H; simpl in *;
    [reflexivity | reflexivity | lia |].
  f_equal. apply IH. lia.
Qed.

Lemma input_titles_nonempty (p : SearchParams) (i : Input) :
  job_titles p <> [] -> job_titles (input p i) <> [].
Proof.
  intros Hp. destruct i as [|index value|index]; simpl.
  - destruct (job_titles p); discriminate.
  - destruct (index <? length (job_titles p))%nat; [|exact Hp].
    simpl. rewrite imap_update. intros E.
    apply (f_equal (@length (list N))) in E. rewrite length_insert in E.
    destruct (job_titles p); [contradiction | discriminate].
  - destruct (Nat.ltb_spec 1 (length (job_titles p))) as [H1|_];
      [|exact Hp].
    destruct (Nat.ltb_spec index (length (job_titles p))) as [H2|_];
      [|exact Hp].
    simpl. rewrite filterIndex_delete0. intros E.
    apply (f_equal (@length (list N))) in E. rewrite length_delete in E.
    + simpl in E. lia.
    + now apply lookup_lt_is_Some.
Qed.

End JobTitles.

(** X14: typing into the title row [index] replaces that entry and nothing
    else: the new list is the old one with position [index] set, of the
    same length; an index past the end changes nothing at all. *)
Theorem X14_updateJobTitle_sets_one_entry
  (index : nat) (value : list N) (p : JobSearch.SearchParams) :
  let p' := JobSearch.updateJobTitle index value p in
  JobSearch.job_titles p' = <[index := value]> (JobSearch.job_titles p)
  /\ length (JobSearch.job_titles p') = length (JobSearch.job_titles p)
  /\ ((index < length (JobSearch.job_titles p))%nat ->
      JobSearch.job_titles p' !! index = Some value)
  /\ (forall other, other <> index ->
        JobSearch.job_titles p' !! other = JobSearch.job_titles p !! other)
  /\ ((length (JobSearch.job_titles p) <= index)%nat -> p' = p).
Proof.
  cbv zeta. unfold JobSearch.updateJobTitle. simpl. rewrite imap_update.
  split; [reflexivity|]. split; [apply length_insert|].
  split; [apply list_lookup_insert_eq|].
  split; [intros other Hne; apply list_lookup_insert_ne; congruence|].
  intros Hge. rewrite list_insert_ge by exact Hge. now destruct p.
Qed.

Lemma X14_updateJobTitle_sets_one_entry_witness :
  JobSearch.job_titles
    (JobSearch.updateJobTitle 1 (Js.lit "Data Scientist")
       (JobSearch.addJobTitle JobSearch.initialParams))
  !! 1%nat
  = Some (Js.lit "Data Scientist").
Proof.
  refine (proj1 (proj2 (proj2
            (X14_updateJobTitle_sets_one_entry 1 (Js.lit "Data Scientist")
               (JobSearch.addJobTitle JobSearch.initialParams)))) _).
  simpl. lia.
Defined.

(** X15: removing row [index] deletes that entry and keeps the others in
    order; an index past the end changes nothing; and removing the row that
    Add just appended gives back the form as it was. *)
Theorem X15_removeJobTitle_deletes_one_entry
  (index : nat) (p : JobSearch.SearchParams) :
  let p' := JobSearch.removeJobTitle index p in
  JobSearch.job_titles p' = delete index (JobSearch.job_titles p)
  /\ ((index < length (JobSearch.job_titles p))%nat ->
      S (length (JobSearch.job_titles p'))
      = length (JobSearch.job_titles p))
  /\ ((length (JobSearch.job_titles p) <= index)%nat -> p' = p)
  /\ JobSearch.removeJobTitle (length (JobSearch.job_titles p))
       (JobSearch.addJobTitle p) = p.
Proof.
  cbv zeta. unfold JobSearch.removeJobTitle, JobSearch.addJobTitle. simpl.
  rewrite !filterIndex_delete0.
  split; [reflexivity|]. split; [|split].
  - intros H. rewrite length_delete by now apply lookup_lt_is_Some.
    destruct (JobSearch.job_titles p); simpl in *; lia.
  - intros H. rewrite delete_past_end by exact H. now destruct p.
  - rewrite delete_middle, app_nil_r. now destruct p.
Qed.

Lemma X15_removeJobTitle_deletes_one_entry_witness :
  S (length (JobSearch.job_titles
               (JobSearch.removeJobTitle 0
                  (JobSearch.addJobTitle JobSearch.initialParams))))
  = length (JobSearch.job_titles
              (JobSearch.addJobTitle JobSearch.initialParams)).
Proof.
  refine (proj1 (proj2
            (X15_removeJobTitle_deletes_one_entry 0
               (JobSearch.addJobTitle JobSearch.initialParams))) _).
  simpl. lia.
Defined.

(** X16: the form never runs out of title rows: whatever the user adds,
    types and removes, starting from the initial form, at least one title
    row is left, because the Remove buttons are only there while there is
    more than one row. *)
Theorem X16_titles_never_empty (inputs : list JobSearch.Input) :
  JobSearch.job_titles (foldl JobSearch.input JobSearch.initialParams inputs)
  <> [].
Proof.
  assert (H : forall p, JobSearch.job_titles p <> [] ->
            JobSearch.job_titles (foldl JobSearch.input p inputs) <> []).
  { induction inputs as [|i inputs IH]; intros p Hp; [exact Hp|].
    simpl. apply IH. now apply input_titles_nonempty. }
  apply H. discriminate.
Qed.

(** X17: the Search button is disabled exactly when every title is empty or
    made of whitespace only. *)
Theorem X17_search_disabled_iff_blank_titles (p : JobSearch.SearchParams) :
  JobSearch.searchDisabled p = true <->
  forall title, In title (JobSearch.job_titles p) ->
    forallb Js.isWhiteSpace title = true.
Proof.
  unfold JobSearch.searchDisabled.
  induction (JobSearch.job_titles p) as [|t l IH]; simpl.
  - split; [intros _ title [] | reflexivity].
  - rewrite negb_orb, andb_true_iff, IH, negb_involutive.
    assert (Ht : match Js.trim t with [] => true | _ :: _ => false end = true
                 <-> forallb Js.isWhiteSpace t = true).
    { rewrite <- trim_nil_iff. destruct (Js.trim t); split; congruence. }
    rewrite Ht. split.
    + intros [H1 H2] title [<-|Hin]; auto.
    + intros H. split; [apply H; now left | intros title Hin; apply H; now right].
Qed.

Lemma X17_search_disabled_iff_blank_titles_witness :
  JobSearch.searchDisabled
    (JobSearch.updateJobTitle 0 (Js.lit "  ") JobSearch.initialParams)
  = true.
Proof.
  refine (proj2 (X17_search_disabled_iff_blank_titles
                   (JobSearch.updateJobTitle 0 (Js.lit "  ")
                      JobSearch.initialParams)) _).
  intros title [<-|[]]. reflexivity.
Defined.

(** * The step indicator *)

(** X18: along the five steps the statuses are always a run of completed
    steps, then the active step if the current step is one of 1 to 5, then
    a run of pending steps; so at most one step is active, nothing pending
    precedes it and nothing completed follows it.  Each of the four
    connectors is green exactly when the step on its left is completed. *)
Theorem X18_statuses_are_ordered (currentStep : Z) :
  StepProgress.statuses currentStep
  = replicate (Z.to_nat (Z.min (Z.max (currentStep - 1) 0) 5))
      StepProgress.completed
    ++ (if (1 <=? currentStep)%Z && (currentStep <=? 5)%Z
        then [StepProgress.active] else [])
    ++ replicate (Z.to_nat (Z.min (Z.max (5 - currentStep) 0) 5))
         StepProgress.pending
  /\ StepProgress.connectors currentStep
     = map (fun status =>
              match status with
              | StepProgress.completed => true
              | _ => false
              end)
         (take 4 (StepProgress.statuses currentStep)).
Proof.
  assert (Hcases : (currentStep <= 0 \/ currentStep = 1 \/ currentStep = 2
                    \/ currentStep = 3 \/ currentStep = 4 \/ currentStep = 5
                    \/ 6 <= currentStep)%Z) by lia.
  destruct Hcases as [H|[->|[->|[->|[->|[->|H]]]]]];
    try (split; reflexivity).
  - replace (Z.to_nat (Z.min (Z.max (currentStep - 1) 0) 5)) with 0%nat by lia.
    replace (Z.to_nat (Z.min (Z.max (5 - currentStep) 0) 5)) with 5%nat by lia.
    assert (H1 : (1 <=? currentStep)%Z = false) by (apply Z.leb_gt; lia).
    rewrite H1.
    unfold StepProgress.connectors, StepProgress.statuses,
      StepProgress.getStepStatus. cbn -[Z.ltb Z.eqb Z.leb].
    repeat match goal with
           | |- context [(?k <? currentStep)%Z] =>
               replace (k <? currentStep)%Z with false
                 by (symmetry; apply Z.ltb_ge; lia)
           | |- context [(?k =? currentStep)%Z] =>
               replace (k =? currentStep)%Z with false
                 by (symmetry; apply Z.eqb_neq; lia)
           end.
    split; reflexivity.
  - replace (Z.to_nat (Z.min (Z.max (currentStep - 1) 0) 5)) with 5%nat by lia.
    replace (Z.to_nat (Z.min (Z.max (5 - currentStep) 0) 5)) with 0%nat by lia.
    assert (H1 : (currentStep <=? 5)%Z = false) by (apply Z.leb_gt; lia).
    rewrite H1, andb_false_r.
    unfold StepProgress.connectors, StepProgress.statuses,
      StepProgress.getStepStatus. cbn -[Z.ltb Z.eqb Z.leb].
    repeat match goal with
           | |- context [(?k <? currentStep)%Z] =>
               replace (k <? currentStep)%Z with true
                 by (symmetry; apply Z.ltb_lt; lia)
           end.
    split; reflexivity.
Qed.

(** * Downloads from the Export page *)

(** X19: the resume download.  With no resume, or an empty one, the click
    does nothing: no request and the page as it was.  Otherwise exactly one
    request is sent, for the resume as [customized_resume.pdf] in format
    [pdf], and it is followed by exactly one more effect: the blob saved
    under that file name when it arrived, an error logged otherwise.
    However the request ends, the exporting flag is off again and a
    notification is up, the success one exactly when the blob arrived; the
    document and its preview are not touched. *)
Theorem X19_resume_download (outcome : Download.Outcome)
  (page : Download.Page) :
  let resume := generatedResume (Download.export page) in
  let result := Download.handleDownloadResume outcome page in
  let request :=
    Download.Fetch (Js.lit "/api/export") resume
      (Js.lit "customized_resume.pdf") (Js.lit "pdf") in
  (Js.falsy resume = true -> result = (page, []))
  /\ (Js.falsy resume = false ->
      snd result
      = match outcome with
        | Download.BlobReady blob =>
            [request; Download.SaveAs (Js.lit "customized_resume.pdf") blob]
        | _ => [request; Download.ConsoleError]
        end
      /\ Download.isExporting (fst result) = false
      /\ showModal (Download.export (fst result)) = true
      /\ head (snd result) = Some request
      /\ (existsb Download.isSaveAs (snd result) = true <->
          exists blob, outcome = Download.BlobReady blob)
      /\ (type (modalContent (Download.export (fst result)))
          = Js.lit "success" <->
          exists blob, outcome = Download.BlobReady blob)
      /\ (type (modalContent (Download.export (fst result)))
          = Js.lit "error" <->
          ~ exists blob, outcome = Download.BlobReady blob)
      /\ rawText (Download.export (fst result))
         = rawText (Download.export page)
      /\ resumePreview (Download.export (fst result))
         = resumePreview (Download.export page)
      /\ showResumePreview (Download.export (fst result))
         = showResumePreview (Download.export page)).
Proof.
  cbv zeta. unfold Download.handleDownloadResume.
  destruct (Js.falsy (generatedResume (Download.export page))) eqn:E.
  - split; [reflexivity | discriminate].
  - split; [discriminate|]. intros _.
    destruct outcome as [| | |blob]; cbn;
      (repeat split; try reflexivity; try discriminate;
       try (intros (b & Hb); discriminate Hb);
       try (intros _ (b & Hb); discriminate Hb);
       try (intros Hno; exfalso; apply Hno); eauto).
Qed.

(** X19 on the resume [A] when the blob [%PDF] arrives. *)
Lemma X19_resume_download_witness :
  snd (Download.handleDownloadResume (Download.BlobReady (Js.lit "%PDF"))
         {| Download.isExporting := false;
            Download.export := openPage (Js.Str (Js.lit "A")) |})
  = [Download.Fetch (Js.lit "/api/export") (Js.Str (Js.lit "A"))
       (Js.lit "customized_resume.pdf") (Js.lit "pdf");
     Download.SaveAs (Js.lit "customized_resume.pdf") (Js.lit "%PDF")].
Proof.
  exact (proj1 (proj2 (X19_resume_download
                         (Download.BlobReady (Js.lit "%PDF"))
                         {| Download.isExporting := false;
                            Download.export :=
                              openPage (Js.Str (Js.lit "A")) |})
                  eq_refl)).
Defined.

(** * Document generation *)

Section Generation.

Import WorkflowContext AIGeneration.

Context {V : Type} `{Values V}.


(** X21: with resume data and a selected job, [handleGenerate] ends with
    the generating flag off, the step text empty and a notification up,
    whatever the requests come to.  It writes only the two generated
    documents.  A failed resume request leaves the workflow as it was and
    is the only request sent; otherwise the resume is stored and the cover
    letter is requested, so a failed cover letter leaves the new resume in
    place.  The cover letter is stored, the move to the next step scheduled
    and the success notification shown exactly when both requests succeed;
    in every other case the cover letter is as before and the notification
    is the error one. *)
Theorem X21_generate_outcomes
  (resume cover : Outcome V) (w : Workflow V) (page : Page) :
  falsy (read "resumeData" w) = false ->
  falsy (read "selectedJob" w) = false ->
  let result := handleGenerate resume cover w page in
  let w' := fst (fst result) in
  let page' := snd (fst result) in
  let both := exists r c, resume = Content r /\ cover = Content c in
  isGenerating page' = false
  /\ generationStep page' = []
  /\ showModal page' = true
  /\ currentStep w' = currentStep w
  /\ (forall key, key <> "generatedResume"%string ->
        key <> "generatedCoverLetter"%string ->
        workflowData w' !! key = workflowData w !! key)
  /\ (forall r, resume = Content r ->
        workflowData w' !! "generatedResume"%string = Some r)
  /\ (resume = Failed -> w' = w)
  /\ (workflowData w' !! "generatedCoverLetter"%string
      <> workflowData w !! "generatedCoverLetter"%string -> both)
  /\ (forall r c, resume = Content r -> cover = Content c ->
        workflowData w' !! "generatedCoverLetter"%string = Some c)
  /\ (~ both ->
      workflowData w' !! "generatedCoverLetter"%string
      = workflowData w !! "generatedCoverLetter"%string)
  /\ (In (Timeout 1500) (snd result) <-> both)
  /\ (type (modalContent page') = Js.lit "success" <-> both)
  /\ (type (modalContent page') = Js.lit "error" <-> ~ both)
  /\ length (filter isFetch (snd result))
     = match resume with Failed => 1%nat | Content _ => 2%nat end
  /\ snd result
     = match resume, cover with
       | Failed, _ => [request (Js.lit "resume") w; ConsoleError]
       | Content _, Failed =>
           [request (Js.lit "resume") w; request (Js.lit "cover_letter") w;
            ConsoleError]
       | Content _, Content _ =>
           [request (Js.lit "resume") w; request (Js.lit "cover_letter") w;
            Timeout 1500]
       end.
Proof.
  intros H1 H2. cbv zeta. unfold handleGenerate. rewrite H1, H2. cbn [orb].
  destruct resume as [|r]; [|destruct cover as [|c]]; cbn [fst snd].
  - repeat split; try reflexivity; try discriminate; try tauto.
    + intros [E|[E|[]]]; discriminate E.
    + intros (r & c & E & _). discriminate E.
    + intros (r & c & E & _). discriminate E.
    + intros _ (r & c & E & _). discriminate E.
  - repeat split; try reflexivity; try discriminate.
    + intros key Hr _. cbn. now rewrite lookup_insert_ne.
    + intros r0 [= <-]. cbn. apply lookup_insert_eq.
    + intros Hne. exfalso. apply Hne. cbn. now rewrite lookup_insert_ne.
    + intros _. cbn. now rewrite lookup_insert_ne.
    + intros [E|[E|[E|[]]]]; discriminate E.
    + intros (r0 & c & _ & E). discriminate E.
    + intros (r0 & c & _ & E). discriminate E.
    + intros _ (r0 & c & _ & E). discriminate E.
  - assert (Hboth : exists r0 c0 : V,
              @Content V r = Content r0 /\ @Content V c = Content c0)
      by (exists r, c; split; reflexivity).
    repeat split; try reflexivity; try discriminate;
      try (intros; exact Hboth).
    + intros key Hr Hc. cbn. now rewrite !lookup_insert_ne.
    + intros r0 [= <-]. cbn. rewrite lookup_insert_ne by discriminate.
      apply lookup_insert_eq.
    + intros r0 c0 _ [= <-]. cbn. apply lookup_insert_eq.
    + intros Hno. contradiction.
    + intros _. cbn. tauto.
    + intros Hno. contradiction.
Qed.

End Generation.


(** X21 on a workflow with a resume and a job, where both requests
    succeed: the cover letter is stored. *)
Lemma X21_generate_outcomes_witness :
  WorkflowContext.workflowData
    (fst (fst (AIGeneration.handleGenerate
                 (AIGeneration.Content (Js.Str (Js.lit "R")))
                 (AIGeneration.Content (Js.Str (Js.lit "C")))
                 (WorkflowContext.updateWorkflowData "selectedJob"
                    (Js.Str (Js.lit "job"))
                    (WorkflowContext.updateWorkflowData "resumeData"
                       (Js.Str (Js.lit "cv"))
                       (WorkflowContext.initial Js.null)))
                 {| AIGeneration.isGenerating := false;
                    AIGeneration.generationStep := [];
                    AIGeneration.showModal := false;
                    AIGeneration.modalContent :=
                      {| type := []; title := []; message := [] |} |})))
  !! "generatedCoverLetter"%string
  = Some (Js.Str (Js.lit "C")).
Proof.
  refine (proj1 (proj2 (proj2 (proj2 (proj2 (proj2 (proj2 (proj2 (proj2
            (X21_generate_outcomes
               (AIGeneration.Content (Js.Str (Js.lit "R")))
               (AIGeneration.Content (Js.Str (Js.lit "C")))
               (WorkflowContext.updateWorkflowData "selectedJob"
                  (Js.Str (Js.lit "job"))
                  (WorkflowContext.updateWorkflowData "resumeData"
                     (Js.Str (Js.lit "cv"))
                     (WorkflowContext.initial Js.null)))
               _ _ _)))))))))
            (Js.Str (Js.lit "R")) (Js.Str (Js.lit "C")) eq_refl eq_refl).
  - vm_compute. reflexivity.
  - vm_compute. reflexivity.
Defined.
